(** * User resource handlers (controllers/userController.ts)

    A shallow embedding of the seven Express handlers of the user API
    ([createUser], [getUserByName], [getUserById], [updateUserByName],
    [updateUserById], [deleteUserById], [deleteUserByName]) together with
    the two collaborators the handlers talk to: the document store
    ([usersCollection]) and the HTTP response object ([res]).

    The handlers are written in a small state-and-exception monad: the
    state is the [World] (store contents, the store calls issued so far,
    the replies written on [res], the errors handed to [next]); an
    exception is a JavaScript [throw] or a rejected promise, and the
    [try { ... } catch (error) { next(error) }] frame of every handler is
    [try_next]. *)

From Stdlib Require Import List String Ascii Bool Arith NArith ZArith Lia.
From Stdlib Require Import DecimalString.
Import ListNotations.

Local Open Scope string_scope.
Local Open Scope list_scope.

Set Implicit Arguments.
Set Warnings "-register-all".

(** ** JavaScript values carried by a request *)

(** A JSON value of the request body, as [express.json()] decodes it.
    Numbers are kept as integers: only their truthiness is observed. *)
Inductive JsValue : Type :=
| JNull
| JBool (b : bool)
| JNumber (z : Z)
| JString (s : string)
| JArray (items : list JsValue)
| JObject (fields : list (string * JsValue)).

(** A value of [req.query], as the query-string parser produces it:
    a string, an array, or a nested object. *)
Inductive QueryValue : Type :=
| QString (s : string)
| QArray (items : list QueryValue)
| QObject (fields : list (string * QueryValue)).

(** [!v] is [negb (js_truthy v)]: objects and arrays are always truthy. *)
Definition js_truthy (v : JsValue) : bool :=
  match v with
  | JNull => false
  | JBool b => b
  | JNumber z => negb (Z.eqb z 0)
  | JString s => negb (String.eqb s "")
  | JArray _ => true
  | JObject _ => true
  end.

Definition query_truthy (q : QueryValue) : bool :=
  match q with
  | QString s => negb (String.eqb s "")
  | QArray _ => true
  | QObject _ => true
  end.

(** A missing property reads as [undefined], which is falsy. *)
Definition truthy_field {A} (t : A -> bool) (o : option A) : bool :=
  match o with
  | None => false
  | Some v => t v
  end.

(** All the results, or [None] as soon as one is missing. *)
Fixpoint sequence {A} (l : list (option A)) : option (list A) :=
  match l with
  | [] => Some []
  | None :: _ => None
  | Some a :: rest =>
      match sequence rest with
      | Some r => Some (a :: r)
      | None => None
      end
  end.

(** Whether an object parsed from the request has an own property
    [key]. *)
Definition has_own {A} (key : string) (fields : list (string * A)) : bool :=
  existsb (fun kv => String.eqb (fst kv) key) fields.

(** [String(q)]; [None] when the conversion throws a [TypeError].  A
    string is itself; an array joins the conversions of its elements
    with commas; an object prints as [[object Object]] through the
    inherited [toString], unless it has an own [toString] key: the
    value parsed under that key is never a function, the conversion
    finds nothing to call that yields a primitive, and throws. *)
Fixpoint js_String (q : QueryValue) : option string :=
  match q with
  | QString s => Some s
  | QArray items =>
      option_map (String.concat ",") (sequence (map js_String items))
  | QObject fields =>
      if has_own "toString" fields then None else Some "[object Object]"
  end.

(** [String(name)] on a property that may be missing. *)
Definition String_ (o : option QueryValue) : option string :=
  match o with
  | None => Some "undefined"
  | Some q => js_String q
  end.

(** The conversion of a JSON value to a string, as a template literal
    [`${v}`] performs it; [None] when it throws a [TypeError].  Inside
    an array [null] prints as the empty string. *)
Fixpoint js_ToString (v : JsValue) : option string :=
  match v with
  | JNull => Some "null"
  | JBool b => Some (if b then "true" else "false")
  | JNumber z => Some (NilZero.string_of_int (Z.to_int z))
  | JString s => Some s
  | JArray items =>
      option_map (String.concat ",")
        (sequence
           (map (fun x =>
                   match x with
                   | JNull => Some ""
                   | _ => js_ToString x
                   end) items))
  | JObject fields =>
      if has_own "toString" fields then None else Some "[object Object]"
  end.

(** [`${name}`] on a property that may be missing. *)
Definition ToString_field (o : option JsValue) : option string :=
  match o with
  | None => Some "undefined"
  | Some v => js_ToString v
  end.

(** [typeof name === "string"] *)
Definition typeof_string (o : option QueryValue) : bool :=
  match o with
  | Some (QString _) => true
  | _ => false
  end.

(** The string behind a value the type checker has narrowed to [string]. *)
Definition narrowed_string (o : option QueryValue) : string :=
  match o with
  | Some (QString s) => s
  | _ => ""
  end.

Fixpoint js_eqb (a b : JsValue) {struct a} : bool :=
  match a, b with
  | JNull, JNull => true
  | JBool x, JBool y => Bool.eqb x y
  | JNumber x, JNumber y => Z.eqb x y
  | JString x, JString y => String.eqb x y
  | JArray xs, JArray ys =>
      (fix items_eqb (l : list JsValue) (m : list JsValue) : bool :=
         match l, m with
         | [], [] => true
         | x :: l', y :: m' => js_eqb x y && items_eqb l' m'
         | _, _ => false
         end) xs ys
  | JObject xs, JObject ys =>
      (fix fields_eqb (l : list (string * JsValue))
           (m : list (string * JsValue)) : bool :=
         match l, m with
         | [], [] => true
         | (k, x) :: l', (k', y) :: m' =>
             String.eqb k k' && js_eqb x y && fields_eqb l' m'
         | _, _ => false
         end) xs ys
  | _, _ => false
  end.

(** ** The identifier library

    [ObjectId.isValid] and [new ObjectId] come from the store's driver,
    not from this repository; the handlers only need the interface. *)
Class Bson : Type := {
  ObjectId : Type;
  ObjectId_eqb : ObjectId -> ObjectId -> bool;
  ObjectId_eqb_eq : forall a b, ObjectId_eqb a b = true <-> a = b;
  (** [ObjectId.isValid(id)] *)
  ObjectId_isValid : string -> bool;
  (** [new ObjectId(id)]; [None] when the constructor throws *)
  new_ObjectId : string -> option ObjectId
}.

(** The canonical textual form of an identifier: 24 hexadecimal digits,
    read as a 96-bit number. *)
Module Hex24.

Definition hex_digit (c : ascii) : option N :=
  let n := N_of_ascii c in
  if ((48 <=? n) && (n <=? 57))%N then Some (n - 48)%N
  else if ((97 <=? n) && (n <=? 102))%N then Some (n - 87)%N
  else if ((65 <=? n) && (n <=? 70))%N then Some (n - 55)%N
  else None.

Fixpoint parse_hex (s : string) (acc : N) : option N :=
  match s with
  | EmptyString => Some acc
  | String c rest =>
      match hex_digit c with
      | Some d => parse_hex rest (16 * acc + d)%N
      | None => None
      end
  end.

Definition parse (s : string) : option N :=
  if Nat.eqb (String.length s) 24 then parse_hex s 0%N else None.

Definition isValid (s : string) : bool :=
  match parse s with
  | Some _ => true
  | None => false
  end.

End Hex24.

Definition bson_hex24 : Bson := {|
  ObjectId := N;
  ObjectId_eqb := N.eqb;
  ObjectId_eqb_eq := N.eqb_eq;
  ObjectId_isValid := Hex24.isValid;
  new_ObjectId := Hex24.parse
|}.

(** ** Errors, promises and completions *)

(** Errors that reach [next]. *)
Inductive JsError : Type :=
| StoreRejected (msg : string)
| BSONError
| ERR_HTTP_HEADERS_SENT
| JsTypeError.

Inductive Promise (A : Type) : Type :=
| Fulfilled (a : A)
| Rejected (e : JsError).
Arguments Rejected {A} e.

(** How a block of statements ends: normally, or by a [throw]. *)
Inductive Completion (A : Type) : Type :=
| Normal (a : A)
| Thrown (e : JsError).
Arguments Thrown {A} e.

(** ** Documents, store calls and their results *)

Section Handlers.

Context {bson : Bson}.

(** A stored user record: [{ _id, name }]. *)
Record Doc : Type := mkDoc {
  _id : ObjectId;
  name : JsValue
}.

Definition set_name (v : JsValue) (d : Doc) : Doc :=
  {| _id := _id d; name := v |}.

(** The two filters the handlers build: [{ name: s }] and [{ _id: o }]. *)
Inductive Filter : Type :=
| ByName (s : string)
| ById (o : ObjectId).

Record InsertOneResult : Type := {
  acknowledged : bool;
  insertedId : ObjectId
}.

Record UpdateResult : Type := {
  matchedCount : nat;
  modifiedCount : nat
}.

Record DeleteResult : Type := {
  deletedCount : nat
}.

(** What [findOneAndUpdate] and [findOneAndDelete] resolve to, as the
    handlers read it ([result.value]) and the unit tests mock it: an
    object whose [value] is the document or [null].  The promise itself
    may resolve to [null], hence [option ModifyResult] below. *)
Record ModifyResult : Type := {
  value : option Doc
}.

(** The methods of [usersCollection] the handlers call, over a store
    state [S].  A [name] handed to the store is [None] when the
    JavaScript value is [undefined]. *)
Record Collection (S : Type) : Type := {
  insertOne : option JsValue -> S -> Promise InsertOneResult * S;
  findOne : Filter -> S -> Promise (option Doc) * S;
  updateOne : Filter -> option JsValue -> S -> Promise UpdateResult * S;
  findOneAndUpdate :
    Filter -> option JsValue -> S -> Promise (option ModifyResult) * S;
  findOneAndDelete : Filter -> S -> Promise (option ModifyResult) * S;
  deleteOne : Filter -> S -> Promise DeleteResult * S
}.

Inductive StoreCall : Type :=
| CallInsertOne (v : option JsValue)
| CallFindOne (f : Filter)
| CallUpdateOne (f : Filter) (v : option JsValue)
| CallFindOneAndUpdate (f : Filter) (v : option JsValue)
| CallFindOneAndDelete (f : Filter)
| CallDeleteOne (f : Filter).

(** ** Requests and replies *)

Record Request : Type := {
  body_name : option JsValue;     (* req.body.name *)
  query_name : option QueryValue; (* req.query.name *)
  params_id : string              (* req.params.id *)
}.

(** The JSON bodies the handlers send. *)
Inductive Body : Type :=
| Message (message : string)
| MessageNewUser (message : string) (id : ObjectId) (nm : option JsValue)
| MessageUser (message : string) (user : Doc)
| Record_ (user : Doc).

(** One [res.status(code).json(body)]. *)
Record Reply : Type := mkReply {
  status : nat;
  json : Body
}.

(** Two response objects: Express's own, on which a second [json]
    throws because the headers are already sent, and a recording one
    (the tests' [jest.fn()] mock) that accepts every call. *)
Inductive Response : Type :=
| ExpressResponse
| RecordingResponse.

(** ** The handler monad *)

Record World (S : Type) : Type := mkWorld {
  db : S;
  db_log : list StoreCall;
  res_log : list Reply;
  next_log : list JsError
}.

Definition init_world {S} (st : S) : World S :=
  {| db := st; db_log := []; res_log := []; next_log := [] |}.

Definition M (S A : Type) : Type := World S -> Completion A * World S.

Definition ret {S A} (a : A) : M S A := fun w => (Normal a, w).

Definition bind {S A B} (m : M S A) (k : A -> M S B) : M S B :=
  fun w =>
    match m w with
    | (Normal a, w') => k a w'
    | (Thrown e, w') => (Thrown e, w')
    end.

Definition throw {S A} (e : JsError) : M S A := fun w => (Thrown e, w).

(** [await usersCollection.method(...)]: the call is logged, the store
    moves, and a rejection is thrown at the [await]. *)
Definition await {S A} (c : StoreCall) (op : S -> Promise A * S) : M S A :=
  fun w =>
    let (p, st') := op (db w) in
    let w' := {| db := st'; db_log := db_log w ++ [c];
                 res_log := res_log w; next_log := next_log w |} in
    match p with
    | Fulfilled a => (Normal a, w')
    | Rejected e => (Thrown e, w')
    end.

(** [res.status(code).json(body)].  Express refuses to write a second
    reply ("Cannot set headers after they are sent to the client"); the
    recording response appends every call. *)
Definition send {S} (res : Response) (code : nat) (b : Body) : M S unit :=
  fun w =>
    match res, res_log w with
    | ExpressResponse, _ :: _ => (Thrown ERR_HTTP_HEADERS_SENT, w)
    | _, _ =>
        (Normal tt,
         {| db := db w; db_log := db_log w;
            res_log := res_log w ++ [mkReply code b];
            next_log := next_log w |})
    end.

(** [new ObjectId(id)] *)
Definition construct_ObjectId {S} (id : string) : M S ObjectId :=
  match new_ObjectId id with
  | Some o => ret o
  | None => throw BSONError
  end.

(** [String(name)] where the handler builds a filter: a conversion
    that throws is a [TypeError] thrown at that point. *)
Definition to_String {S} (o : option QueryValue) : M S string :=
  match String_ o with
  | Some s => ret s
  | None => throw JsTypeError
  end.

(** [console.log(`Received ID: ${id}, New Name: ${name}`)]: the
    template literal converts [name] to a string, which may throw; the
    line itself goes to the console, which the world does not record. *)
Definition console_log_received {S} (id : string) (name : option JsValue)
  : M S unit :=
  match ToString_field name with
  | Some n => ret tt
  | None => throw JsTypeError
  end.

(** [try { body } catch (error) { next(error) }] *)
Definition try_next {S} (body : M S unit) : World S -> World S :=
  fun w =>
    match body w with
    | (Normal _, w') => w'
    | (Thrown e, w') =>
        {| db := db w'; db_log := db_log w'; res_log := res_log w';
           next_log := next_log w' ++ [e] |}
    end.

End Handlers.

Declare Scope handler_scope.
Delimit Scope handler_scope with handler.
Notation "x <- m ;; k" := (bind m (fun x => k))
  (at level 61, m at next level, right associativity) : handler_scope.
Notation "m ;; k" := (bind m (fun _ => k))
  (at level 61, right associativity) : handler_scope.

Local Open Scope handler_scope.

(** ** The handlers *)

Section Controller.

Context {bson : Bson} {S : Type}.

(** [usersCollection], the module-level handle of config/db.ts. *)
Variable usersCollection : Collection S.

Definition await_insertOne (v : option JsValue) : M S InsertOneResult :=
  await (CallInsertOne v) (insertOne usersCollection v).

Definition await_findOne (f : Filter) : M S (option Doc) :=
  await (CallFindOne f) (findOne usersCollection f).

Definition await_updateOne (f : Filter) (v : option JsValue)
  : M S UpdateResult :=
  await (CallUpdateOne f v) (updateOne usersCollection f v).

Definition await_findOneAndUpdate (f : Filter) (v : option JsValue)
  : M S (option ModifyResult) :=
  await (CallFindOneAndUpdate f v) (findOneAndUpdate usersCollection f v).

Definition await_findOneAndDelete (f : Filter) : M S (option ModifyResult) :=
  await (CallFindOneAndDelete f) (findOneAndDelete usersCollection f).

Definition await_deleteOne (f : Filter) : M S DeleteResult :=
  await (CallDeleteOne f) (deleteOne usersCollection f).

Definition createUser (req : Request) (res : Response)
  : World S -> World S :=
  try_next (
    let name := body_name req in
    if negb (truthy_field js_truthy name) then
      send res 400 (Message "Name is required")
    else
      result <- await_insertOne name ;;
      if negb (acknowledged result) then
        send res 500 (Message "Failed to create user")
      else
        send res 201
          (MessageNewUser "User created successfully"
             (insertedId result) name)).

Definition getUserByName (req : Request) (res : Response)
  : World S -> World S :=
  try_next (
    let name := query_name req in
    if negb (truthy_field query_truthy name) then
      send res 400 (Message "Name is required")
    else
      name' <- to_String name ;;
      user <- await_findOne (ByName name') ;;
      match user with
      | None => send res 404 (Message "User not found")
      | Some u => send res 200 (Record_ u)
      end).

Definition getUserById (req : Request) (res : Response)
  : World S -> World S :=
  try_next (
    let id := params_id req in
    if negb (ObjectId_isValid id) then
      send res 400 (Message "Invalid user ID")
    else
      oid <- construct_ObjectId id ;;
      user <- await_findOne (ById oid) ;;
      match user with
      | None => send res 404 (Message "User not found")
      | Some u => send res 200 (Record_ u)
      end).

(** The [matchedCount === 0] branch has no [return]: control falls
    through to the 200 reply. *)
Definition updateUserByName (req : Request) (res : Response)
  : World S -> World S :=
  try_next (
    let newName := body_name req in
    let oldName := query_name req in
    if negb (truthy_field query_truthy oldName)
       || negb (truthy_field js_truthy newName) then
      send res 400
        (Message "Both old name (query) and new name (body) are required")
    else
      oldName' <- to_String oldName ;;
      result <- await_updateOne (ByName oldName') newName ;;
      (if Nat.eqb (matchedCount result) 0 then
         send res 404 (Message "User not found")
       else ret tt) ;;
      send res 200 (Message "User updated successfully")).

(** The received id and name are logged first, inside the [try] and
    before the id is checked. *)
Definition updateUserById (req : Request) (res : Response)
  : World S -> World S :=
  try_next (
    let id := params_id req in
    let name := body_name req in
    console_log_received id name ;;
    if negb (ObjectId_isValid id) then
      send res 400 (Message "Invalid user ID")
    else
      oid <- construct_ObjectId id ;;
      existingUser <- await_findOne (ById oid) ;;
      match existingUser with
      | None => send res 404 (Message "User not found")
      | Some _ =>
          oid' <- construct_ObjectId id ;;
          result <- await_findOneAndUpdate (ById oid') name ;;
          match result with
          | None => send res 404 (Message "User not found")
          | Some r =>
              match value r with
              | None => send res 404 (Message "User not found")
              | Some u =>
                  send res 200 (MessageUser "User updated successfully" u)
              end
          end
      end).

Definition deleteUserById (req : Request) (res : Response)
  : World S -> World S :=
  try_next (
    let id := params_id req in
    if negb (ObjectId_isValid id) then
      send res 400 (Message "Invalid user ID")
    else
      objectId <- construct_ObjectId id ;;
      deleteResult <- await_findOneAndDelete (ById objectId) ;;
      match deleteResult with
      | None => send res 404 (Message "User not found")
      | Some r =>
          match value r with
          | None => send res 404 (Message "User not found")
          | Some u =>
              send res 200 (MessageUser "User deleted successfully" u)
          end
      end).

Definition deleteUserByName (req : Request) (res : Response)
  : World S -> World S :=
  try_next (
    let name := query_name req in
    if negb (truthy_field query_truthy name)
       || negb (typeof_string name) then
      send res 400 (Message "Name query parameter is required")
    else
      result <- await_deleteOne (ByName (narrowed_string name)) ;;
      if Nat.eqb (deletedCount result) 0 then
        send res 404 (Message "User not found")
      else
        send res 200 (Message "User deleted successfully")).

(** The route table of routes/userRoutes.ts. *)
Inductive Route : Type :=
| POST_users
| GET_users
| GET_users_id
| PUT_users_id
| PUT_users
| DELETE_users
| DELETE_users_id.

Definition router (r : Route) : Request -> Response -> World S -> World S :=
  match r with
  | POST_users => createUser
  | GET_users => getUserByName
  | GET_users_id => getUserById
  | PUT_users_id => updateUserById
  | PUT_users => updateUserByName
  | DELETE_users => deleteUserByName
  | DELETE_users_id => deleteUserById
  end.

End Controller.

(** ** The document store *)

Module MemStore.

Section Model.

Context {bson : Bson}.

(** Modelled from the spec: the Document Store collaborator (section 6:
    insert-one returning the assigned id and an acknowledgment flag,
    find-one-by-field-equality, update-one-by-filter returning
    matched/modified counts, find-and-update returning the new value,
    find-and-delete returning the old value, delete-one-by-filter
    returning the deleted count).  The driver behind [usersCollection]
    is outside the repository; the store is a list of records in
    insertion order, and every single-record operation acts on the
    first record the filter selects. *)
Definition matches (f : Filter) (d : Doc) : bool :=
  match f with
  | ByName s =>
      match name d with
      | JString t => String.eqb t s
      | _ => false
      end
  | ById o => ObjectId_eqb (_id d) o
  end.

(** Modelled from the spec: the store keeps the name it is given.  A
    missing ([undefined]) name, which only [updateUserById] can pass on,
    is written as [null], the driver's default for [undefined]. *)
Definition stored (v : option JsValue) : JsValue :=
  match v with
  | Some x => x
  | None => JNull
  end.

(** Modelled from the spec: replace the first selected record. *)
Fixpoint update_first (f : Filter) (g : Doc -> Doc) (l : list Doc)
  : list Doc :=
  match l with
  | [] => []
  | d :: rest =>
      if matches f d then g d :: rest else d :: update_first f g rest
  end.

(** Modelled from the spec: drop the first selected record. *)
Fixpoint remove_first (f : Filter) (l : list Doc) : list Doc :=
  match l with
  | [] => []
  | d :: rest => if matches f d then rest else d :: remove_first f rest
  end.

(** Modelled from the spec: the store's methods.  [ack] is whether
    writes are acknowledged; [pkFactory] assigns the id of a new
    record. *)
Definition collection (ack : bool) (pkFactory : list Doc -> ObjectId)
  : Collection (list Doc) :=
  {| insertOne := fun v st =>
       let id := pkFactory st in
       (Fulfilled {| acknowledged := ack; insertedId := id |},
        st ++ [mkDoc id (stored v)]);
     findOne := fun f st => (Fulfilled (find (matches f) st), st);
     updateOne := fun f v st =>
       match find (matches f) st with
       | None =>
           (Fulfilled {| matchedCount := 0; modifiedCount := 0 |}, st)
       | Some d =>
           (Fulfilled
              {| matchedCount := 1;
                 modifiedCount :=
                   if js_eqb (name d) (stored v) then 0 else 1 |},
            update_first f (set_name (stored v)) st)
       end;
     findOneAndUpdate := fun f v st =>
       (Fulfilled
          (Some {| value :=
                     option_map (set_name (stored v))
                       (find (matches f) st) |}),
        update_first f (set_name (stored v)) st);
     findOneAndDelete := fun f st =>
       (Fulfilled (Some {| value := find (matches f) st |}),
        remove_first f st);
     deleteOne := fun f st =>
       (Fulfilled
          {| deletedCount :=
               match find (matches f) st with
               | Some _ => 1
               | None => 0
               end |},
        remove_first f st) |}.

End Model.

End MemStore.

(** ** Running one request *)

Section Run.

Context {bson : Bson}.

(** A store that failed before it could answer. *)
Definition rejecting (msg : string) : Collection (list Doc) :=
  {| insertOne := fun _ st => (Rejected (StoreRejected msg), st);
     findOne := fun _ st => (Rejected (StoreRejected msg), st);
     updateOne := fun _ _ st => (Rejected (StoreRejected msg), st);
     findOneAndUpdate := fun _ _ st => (Rejected (StoreRejected msg), st);
     findOneAndDelete := fun _ st => (Rejected (StoreRejected msg), st);
     deleteOne := fun _ st => (Rejected (StoreRejected msg), st) |}.

(** A request that carries only [req.body.name]. *)
Definition body_only (v : option JsValue) : Request :=
  {| body_name := v; query_name := None; params_id := "" |}.

(** A request that carries only [req.query.name]. *)
Definition query_only (q : option QueryValue) : Request :=
  {| body_name := None; query_name := q; params_id := "" |}.

(** [PUT /users?name=old] with body [{ name: new }]. *)
Definition rename_request (old : option QueryValue) (new : option JsValue)
  : Request :=
  {| body_name := new; query_name := old; params_id := "" |}.

(** A request on [/users/:id]. *)
Definition id_request (id : string) (v : option JsValue) : Request :=
  {| body_name := v; query_name := None; params_id := id |}.

(** The world after a request that was answered once, with no error
    handed to [next]. *)
Definition answered {S} (st : S) (calls : list StoreCall) (code : nat)
  (b : Body) : World S :=
  {| db := st; db_log := calls; res_log := [mkReply code b];
     next_log := [] |}.

(** The replies with a given status code. *)
Definition replies_with {S} (code : nat) (w : World S) : list Reply :=
  filter (fun r => Nat.eqb (status r) code) (res_log w).

End Run.

(** ** The guards and a store that is down *)

Section Guards.

Context {bson : Bson}.

(** The condition under which each handler answers 400, as its first
    [if] has it. *)
Definition guard_fails (route : Route) (req : Request) : bool :=
  match route with
  | POST_users => negb (truthy_field js_truthy (body_name req))
  | GET_users => negb (truthy_field query_truthy (query_name req))
  | GET_users_id => negb (ObjectId_isValid (params_id req))
  | PUT_users_id => negb (ObjectId_isValid (params_id req))
  | PUT_users =>
      negb (truthy_field query_truthy (query_name req))
      || negb (truthy_field js_truthy (body_name req))
  | DELETE_users =>
      negb (truthy_field query_truthy (query_name req))
      || negb (typeof_string (query_name req))
  | DELETE_users_id => negb (ObjectId_isValid (params_id req))
  end.

(** Whether the handler throws before it reaches its guard: only
    [updateUserById] does anything there, the log line, which throws
    when the body name cannot be converted to a string. *)
Definition throws_before_guard (route : Route) (req : Request) : bool :=
  match route with
  | PUT_users_id =>
      match ToString_field (body_name req) with
      | Some _ => false
      | None => true
      end
  | _ => false
  end.

(** A collection every call on which is rejected. *)
Definition rejects_all {S} (col : Collection S) : Prop :=
  (forall v st, exists e, fst (insertOne col v st) = Rejected e) /\
  (forall f st, exists e, fst (findOne col f st) = Rejected e) /\
  (forall f v st, exists e, fst (updateOne col f v st) = Rejected e) /\
  (forall f v st, exists e, fst (findOneAndUpdate col f v st) = Rejected e) /\
  (forall f st, exists e, fst (findOneAndDelete col f st) = Rejected e) /\
  (forall f st, exists e, fst (deleteOne col f st) = Rejected e).

End Guards.

(** ** Connecting to the database (config/db.ts) *)

Module Db.

(** [process.env], after [dotenv.config()]. *)
Record ProcessEnv : Type := {
  NODE_ENV : option string;
  MONGO_URI : option string
}.

(** The objects the driver and the in-memory server hand out. *)
Record MongoMemoryServer : Type := { getUri : string }.

Record MongoClient : Type := { client_uri : string }.

Record DbHandle : Type := { db_client : MongoClient; db_name : string }.

Record CollectionHandle : Type := {
  collection_db : DbHandle;
  collection_name : string
}.

(** What is thrown or rejected in this module: the module's own
    [new Error(message)], a [TypeError] from calling a method on
    [undefined], or whatever a library call failed with. *)
Inductive DbError : Type :=
| Error_ (message : string)
| TypeError
| LibraryError (e : JsError).

(** How the libraries answer.  They are outside the repository:
    [MongoMemoryServer.create()], [new MongoClient(uri)],
    [client.connect()], [client.close()] and [mongoServer.stop()]
    may each fail. *)
Record Libraries : Type := {
  MongoMemoryServer_create : Promise MongoMemoryServer;
  MongoClient_new : string -> Completion MongoClient;
  client_connect : MongoClient -> option JsError;
  client_close : MongoClient -> option JsError;
  mongoServer_stop : MongoMemoryServer -> option JsError
}.

Inductive Call : Type :=
| CallCreateServer
| CallNewClient (uri : string)
| CallConnect (c : MongoClient)
| CallClose (c : MongoClient)
| CallStop (srv : MongoMemoryServer)
| CallConsoleLog (msg : string).

(** The module-level variables. *)
Record Vars : Type := {
  useInMemoryDatabase : bool;
  db : option DbHandle;
  usersCollection : option CollectionHandle;
  mongoServer : option MongoMemoryServer;
  client : option MongoClient
}.

Record State : Type := {
  vars : Vars;
  calls : list Call
}.

Inductive Outcome (A : Type) : Type :=
| Done (a : A)
| Failed (e : DbError).
Arguments Failed {A} e.

Definition D (A : Type) : Type := State -> Outcome A * State.

Definition unit_ {A} (a : A) : D A := fun s => (Done a, s).

Definition then_ {A B} (m : D A) (k : A -> D B) : D B :=
  fun s =>
    match m s with
    | (Done a, s') => k a s'
    | (Failed e, s') => (Failed e, s')
    end.

Definition raise {A} (e : DbError) : D A := fun s => (Failed e, s).

Definition log_call (c : Call) : D unit :=
  fun s => (Done tt, {| vars := vars s; calls := calls s ++ [c] |}).

Definition read {A} (field : Vars -> A) : D A :=
  fun s => (Done (field (vars s)), s).

Definition assign (f : Vars -> Vars) : D unit :=
  fun s => (Done tt, {| vars := f (vars s); calls := calls s |}).

Definition set_mongoServer (srv : MongoMemoryServer) (v : Vars) : Vars :=
  {| useInMemoryDatabase := useInMemoryDatabase v; db := db v;
     usersCollection := usersCollection v; mongoServer := Some srv;
     client := client v |}.

Definition set_client (c : MongoClient) (v : Vars) : Vars :=
  {| useInMemoryDatabase := useInMemoryDatabase v; db := db v;
     usersCollection := usersCollection v; mongoServer := mongoServer v;
     client := Some c |}.

Definition set_db (h : DbHandle) (v : Vars) : Vars :=
  {| useInMemoryDatabase := useInMemoryDatabase v; db := Some h;
     usersCollection := usersCollection v; mongoServer := mongoServer v;
     client := client v |}.

Definition set_usersCollection (h : CollectionHandle) (v : Vars) : Vars :=
  {| useInMemoryDatabase := useInMemoryDatabase v; db := db v;
     usersCollection := Some h; mongoServer := mongoServer v;
     client := client v |}.

(** The module as it is once loaded:
    [useInMemoryDatabase = process.env.NODE_ENV === "test"], every
    [let] still [undefined]. *)
Definition load (env : ProcessEnv) : State :=
  {| vars :=
       {| useInMemoryDatabase :=
            match NODE_ENV env with
            | Some v => String.eqb v "test"
            | None => false
            end;
          db := None; usersCollection := None; mongoServer := None;
          client := None |};
     calls := [] |}.

(** [await MongoMemoryServer.create()] *)
Definition await_create (lib : Libraries) : D MongoMemoryServer :=
  then_ (log_call CallCreateServer) (fun _ =>
  match MongoMemoryServer_create lib with
  | Fulfilled srv => unit_ srv
  | Rejected e => raise (LibraryError e)
  end).

(** [new MongoClient(uri)] *)
Definition new_MongoClient (lib : Libraries) (uri : string)
  : D MongoClient :=
  then_ (log_call (CallNewClient uri)) (fun _ =>
  match MongoClient_new lib uri with
  | Normal c => unit_ c
  | Thrown e => raise (LibraryError e)
  end).

(** [await client.connect()], [client] being the module variable. *)
Definition await_connect (lib : Libraries) : D unit :=
  then_ (read client) (fun c =>
  match c with
  | None => raise TypeError
  | Some c =>
      then_ (log_call (CallConnect c)) (fun _ =>
      match client_connect lib c with
      | None => unit_ tt
      | Some e => raise (LibraryError e)
      end)
  end).

(** [db = client.db(name)] *)
Definition select_db (name : string) : D unit :=
  then_ (read client) (fun c =>
  match c with
  | None => raise TypeError
  | Some c => assign (set_db {| db_client := c; db_name := name |})
  end).

(** [await client.close()] *)
Definition await_close (lib : Libraries) : D unit :=
  then_ (read client) (fun c =>
  match c with
  | None => raise TypeError
  | Some c =>
      then_ (log_call (CallClose c)) (fun _ =>
      match client_close lib c with
      | None => unit_ tt
      | Some e => raise (LibraryError e)
      end)
  end).

(** [await mongoServer.stop()] *)
Definition await_stop (lib : Libraries) (srv : MongoMemoryServer)
  : D unit :=
  then_ (log_call (CallStop srv)) (fun _ =>
  match mongoServer_stop lib srv with
  | None => unit_ tt
  | Some e => raise (LibraryError e)
  end).

(** [!uri] on [process.env.MONGO_URI] *)
Definition uri_missing (uri : option string) : bool :=
  match uri with
  | None => true
  | Some u => String.eqb u ""
  end.

Definition connectToDatabase (env : ProcessEnv) (lib : Libraries)
  : D unit :=
  then_ (read useInMemoryDatabase) (fun inMemory =>
  then_
    (if inMemory then
       then_ (await_create lib) (fun srv =>
       then_ (assign (set_mongoServer srv)) (fun _ =>
       let uri := getUri srv in
       then_ (new_MongoClient lib uri) (fun c =>
       then_ (assign (set_client c)) (fun _ =>
       then_ (await_connect lib) (fun _ =>
       select_db "test")))))
     else
       let uri := MONGO_URI env in
       if uri_missing uri then
         raise (Error_ "MongoDB URI is not defined")
       else
         then_ (new_MongoClient lib
                  (match uri with Some u => u | None => "" end))
           (fun c =>
         then_ (assign (set_client c)) (fun _ =>
         then_ (await_connect lib) (fun _ =>
         select_db "user"))))
    (fun _ =>
  then_ (read db) (fun d =>
  then_
    (match d with
     | None => raise TypeError
     | Some d =>
         assign (set_usersCollection
                   {| collection_db := d; collection_name := "users" |})
     end)
    (fun _ =>
  log_call (CallConsoleLog "Connected to MongoDB"))))).

Definition closeDatabase (lib : Libraries) : D unit :=
  then_ (read useInMemoryDatabase) (fun inMemory =>
  then_ (read mongoServer) (fun srv =>
  match inMemory, srv with
  | true, Some srv =>
      then_ (await_close lib) (fun _ => await_stop lib srv)
  | _, _ =>
      then_ (read client) (fun c =>
      match c with
      | Some _ => await_close lib
      | None => unit_ tt
      end)
  end)).

End Db.

(** ** Starting the application (app.ts) *)

Module App.

(** What [app.use] has installed. *)
Inductive Layer : Type :=
| express_json
| userRoutes (prefix : string).

Record Process : Type := {
  stack : list Layer;
  console_error : list Db.DbError;
  exit_code : option nat;
  database : Db.State
}.

(** The module body: install the JSON body parser, then connect; mount
    the user routes under [/api] once connected, and on failure log the
    error and [process.exit(1)]. *)
Definition start (env : Db.ProcessEnv) (lib : Db.Libraries) : Process :=
  let stack0 := [express_json] in
  match Db.connectToDatabase env lib (Db.load env) with
  | (Db.Done _, s) =>
      {| stack := stack0 ++ [userRoutes "/api"]; console_error := [];
         exit_code := None; database := s |}
  | (Db.Failed e, s) =>
      {| stack := stack0; console_error := [e]; exit_code := Some 1;
         database := s |}
  end.

End App.

(** ** Sample data *)

Module Sample.

(** One more than the largest id in use. *)
Definition pkFactory (st : list (@Doc bson_hex24)) : N :=
  N.succ (fold_right N.max 0%N (map (@_id bson_hex24) st)).

Definition store : Collection (list (@Doc bson_hex24)) :=
  @MemStore.collection bson_hex24 true pkFactory.

Definition unacknowledged : Collection (list (@Doc bson_hex24)) :=
  @MemStore.collection bson_hex24 false pkFactory.

Definition users : list (@Doc bson_hex24) :=
  [ @mkDoc bson_hex24 1%N (JString "Old Name");
    @mkDoc bson_hex24 2%N (JString "John Doe");
    @mkDoc bson_hex24 3%N (JString "Old Name") ].

Definition id_two : string := "000000000000000000000002".

Definition id_absent : string := "60d5f4813d4f3f2d4c9b53e7".

End Sample.

(** ** Sample environments and libraries *)

Module SampleDb.

Definition env_test : Db.ProcessEnv :=
  {| Db.NODE_ENV := Some "test"; Db.MONGO_URI := None |}.

Definition env_production : Db.ProcessEnv :=
  {| Db.NODE_ENV := Some "production";
     Db.MONGO_URI := Some "mongodb://db.example/users" |}.

Definition env_no_uri : Db.ProcessEnv :=
  {| Db.NODE_ENV := Some "production"; Db.MONGO_URI := None |}.

Definition server : Db.MongoMemoryServer :=
  {| Db.getUri := "mongodb://127.0.0.1:27017/" |}.

(** Libraries that always succeed. *)
Definition libraries : Db.Libraries :=
  {| Db.MongoMemoryServer_create := Fulfilled server;
     Db.MongoClient_new := fun uri => Normal {| Db.client_uri := uri |};
     Db.client_connect := fun _ => None;
     Db.client_close := fun _ => None;
     Db.mongoServer_stop := fun _ => None |}.

(** Libraries on which [client.close()] is rejected. *)
Definition close_fails : Db.Libraries :=
  {| Db.MongoMemoryServer_create := Fulfilled server;
     Db.MongoClient_new := fun uri => Normal {| Db.client_uri := uri |};
     Db.client_connect := fun _ => None;
     Db.client_close := fun _ => Some (StoreRejected "close failed");
     Db.mongoServer_stop := fun _ => None |}.

End SampleDb.

(** * Properties *)

(** ** The store model *)

Section StoreFacts.

Context {bson : Bson}.

Import MemStore.

Lemma matches_ById (o : ObjectId) (d : Doc) :
  matches (ById o) d = true <-> _id d = o.
Proof. simpl. apply ObjectId_eqb_eq. Qed.

Lemma matches_ByName (s : string) (d : Doc) :
  matches (ByName s) d = true <-> name d = JString s.
Proof.
  simpl. destruct (name d); try (split; [discriminate | congruence]).
  rewrite String.eqb_eq. split; congruence.
Qed.

(** Where the first selected record sits, and what the two
    single-record edits do to the list. *)
Lemma find_first (f : Filter) (g : Doc -> Doc) (st : list Doc) (d : Doc) :
  find (matches f) st = Some d ->
  exists l1 l2,
    st = l1 ++ d :: l2 /\
    matches f d = true /\
    (forall x, In x l1 -> matches f x = false) /\
    update_first f g st = l1 ++ g d :: l2 /\
    remove_first f st = l1 ++ l2.
Proof.
  induction st as [|x rest IH]; simpl; [discriminate|].
  destruct (matches f x) eqn:Hx.
  - intros [= ->]. exists [], rest. simpl. repeat split; auto.
    intros y [].
  - intros Hd. destruct (IH Hd) as (l1 & l2 & -> & Hm & Hl & Hu & Hr).
    exists (x :: l1), l2. simpl. rewrite Hu, Hr. repeat split; auto.
    intros y [<-|Hy]; auto.
Qed.

Lemma find_nothing (f : Filter) (g : Doc -> Doc) (st : list Doc) :
  find (matches f) st = None ->
  update_first f g st = st /\ remove_first f st = st.
Proof.
  induction st as [|x rest IH]; simpl; [auto|].
  destruct (matches f x); [discriminate|].
  intros H. destruct (IH H) as [-> ->]. auto.
Qed.

Lemma find_none_iff (f : Filter) (st : list Doc) :
  find (matches f) st = None <-> (forall x, In x st -> matches f x = false).
Proof.
  split.
  - intros H x Hx. exact (find_none _ _ H x Hx).
  - induction st as [|x rest IH]; simpl; [auto|]. intros H.
    rewrite (H x (or_introl eq_refl)). apply IH. auto.
Qed.

Lemma find_some_of_In (f : Filter) (st : list Doc) (d : Doc) :
  In d st -> matches f d = true -> exists u, find (matches f) st = Some u.
Proof.
  intros Hin Hm. destruct (find (matches f) st) eqn:E; [eauto|].
  rewrite (proj1 (find_none_iff f st) E d Hin) in Hm. discriminate.
Qed.


End StoreFacts.

(** ** The handlers over any store *)

Section AnyStore.

Context {bson : Bson} {S : Type}.

Variable col : Collection S.

Ltac run_handler :=
  unfold createUser, getUserByName, getUserById, updateUserByName,
    updateUserById, deleteUserById, deleteUserByName, try_next, bind,
    await_insertOne, await_findOne, await_updateOne,
    await_findOneAndUpdate, await_findOneAndDelete, await_deleteOne,
    await, send, construct_ObjectId, to_String, console_log_received, ret,
    throw, init_world, answered;
  simpl.

(** [!name] rejects every falsy body value before the store is touched. *)
Lemma createUser_falsy (req : Request) (res : Response) (st : S) :
  truthy_field js_truthy (body_name req) = false ->
  createUser col req res (init_world st)
  = answered st [] 400 (Message "Name is required").
Proof. intros H. run_handler. rewrite H. simpl. now destruct res. Qed.

Lemma createUser_truthy (req : Request) (res : Response) (st st' : S)
  (r : InsertOneResult) :
  truthy_field js_truthy (body_name req) = true ->
  insertOne col (body_name req) st = (Fulfilled r, st') ->
  createUser col req res (init_world st)
  = if acknowledged r then
      answered st' [CallInsertOne (body_name req)] 201
        (MessageNewUser "User created successfully" (insertedId r)
           (body_name req))
    else
      answered st' [CallInsertOne (body_name req)] 500
        (Message "Failed to create user").
Proof.
  intros H Hins. run_handler. rewrite H. simpl. rewrite Hins. simpl.
  destruct (acknowledged r), res; reflexivity.
Qed.

Lemma nonempty_truthy (s : string) :
  s <> "" -> js_truthy (JString s) = true.
Proof.
  intros H. simpl. destruct (String.eqb_spec s ""); [contradiction | easy].
Qed.

Lemma nonempty_query_truthy (s : string) :
  s <> "" -> query_truthy (QString s) = true.
Proof.
  intros H. simpl. destruct (String.eqb_spec s ""); [contradiction | easy].
Qed.

Lemma createUser_issues_insert (req : Request) (res : Response) (st : S) :
  truthy_field js_truthy (body_name req) = true ->
  db_log (createUser col req res (init_world st))
  = [CallInsertOne (body_name req)].
Proof.
  intros H. run_handler. rewrite H. simpl.
  destruct (insertOne col (body_name req) st) as [[r|e] st']; simpl;
    [destruct (acknowledged r)|]; destruct res; reflexivity.
Qed.

(** The store is reached exactly when the guard lets the name through. *)
Lemma createUser_reaches_store (req : Request) (res : Response) (st : S) :
  db_log (createUser col req res (init_world st)) <> [] ->
  truthy_field js_truthy (body_name req) = true.
Proof.
  intros H. destruct (truthy_field js_truthy (body_name req)) eqn:E; auto.
  rewrite (createUser_falsy req res st E) in H. now elim H.
Qed.

(** C7: Create answers 400 "Name is required" without calling the store
    when the name is absent or the empty string.  For a non-empty name
    it issues the insert, and whenever the insert was issued and the
    store acknowledged it, the answer is 201 with the message "User
    created successfully", the inserted id and the given name. *)
Theorem createUser_validates_then_creates (req : Request) (res : Response)
  (st : S) :
  let w := createUser col req res (init_world st) in
  (body_name req = None \/ body_name req = Some (JString "") ->
   w = answered st [] 400 (Message "Name is required"))
  /\
  (forall s : string,
     s <> "" ->
     body_name req = Some (JString s) ->
     db_log w = [CallInsertOne (Some (JString s))])
  /\
  (forall (r : InsertOneResult) (st' : S),
     db_log w <> [] ->
     insertOne col (body_name req) st = (Fulfilled r, st') ->
     acknowledged r = true ->
     w = answered st' [CallInsertOne (body_name req)] 201
           (MessageNewUser "User created successfully" (insertedId r)
              (body_name req))).
Proof.
  intros w. split; [|split].
  - intros [H|H]; apply createUser_falsy; rewrite H; reflexivity.
  - intros s Hs Hb. unfold w. rewrite <- Hb.
    apply createUser_issues_insert. rewrite Hb. simpl.
    now apply nonempty_truthy.
  - intros r st' Hlog Hins Hack. unfold w.
    rewrite (@createUser_truthy req res st st' r); auto.
    + rewrite Hack. reflexivity.
    + now apply createUser_reaches_store in Hlog.
Qed.

(** C8: Create with a non-empty name whose insert the store does not
    acknowledge answers 500 with the message "Failed to create user"
    and no record. *)
Theorem createUser_unacknowledged (req : Request) (res : Response)
  (st st' : S) (s : string) (r : InsertOneResult) :
  s <> "" ->
  body_name req = Some (JString s) ->
  insertOne col (Some (JString s)) st = (Fulfilled r, st') ->
  acknowledged r = false ->
  createUser col req res (init_world st)
  = answered st' [CallInsertOne (Some (JString s))] 500
      (Message "Failed to create user").
Proof.
  intros Hs Hb Hins Hack.
  rewrite (@createUser_truthy req res st st' r).
  - rewrite Hack, Hb. reflexivity.
  - rewrite Hb. simpl. now apply nonempty_truthy.
  - rewrite Hb. exact Hins.
Qed.

(** C3: for an id that [ObjectId.isValid] rejects, FindById and
    DeleteById both answer 400 "Invalid user ID"; no store call is
    issued and the store is left as it was, whatever it holds. *)
Theorem invalid_id_rejected (req : Request) (res : Response) (st : S) :
  ObjectId_isValid (params_id req) = false ->
  getUserById col req res (init_world st)
  = answered st [] 400 (Message "Invalid user ID")
  /\
  deleteUserById col req res (init_world st)
  = answered st [] 400 (Message "Invalid user ID").
Proof.
  intros H. split; run_handler; rewrite H; simpl; now destruct res.
Qed.

Ltac split_cases :=
  repeat (match goal with
          | |- context [match ?x with _ => _ end] =>
              lazymatch x with
              | context [match _ with _ => _ end] => fail
              | _ => destruct x eqn:?
              end
          end; simpl).

(** A handler either stops at its validation guard, having answered 400
    and nothing else, or never answers 400 at all. *)
Lemma guard_or_no_400 (route : Route) (req : Request) (res : Response)
  (st : S) :
  (exists m, router col route req res (init_world st)
             = answered st [] 400 (Message m))
  \/ replies_with 400 (router col route req res (init_world st)) = [].
Proof.
  unfold replies_with.
  destruct route; simpl; run_handler; split_cases;
    solve [ left; eexists; reflexivity | right; reflexivity ].
Qed.

(** C10: in each of the seven handlers the validation guard comes before
    every store call: if the handler answered 400, it issued no store
    call and the store is as it was. *)
Theorem validation_precedes_store (route : Route) (req : Request)
  (res : Response) (st : S) (r : Reply) :
  In r (res_log (router col route req res (init_world st))) ->
  status r = 400 ->
  db_log (router col route req res (init_world st)) = []
  /\ db (router col route req res (init_world st)) = st.
Proof.
  intros Hin Hst.
  destruct (guard_or_no_400 route req res st) as [[m ->] | Hnone].
  - split; reflexivity.
  - exfalso.
    assert (Hf : In r (replies_with 400
                         (router col route req res (init_world st)))).
    { unfold replies_with. apply filter_In. split; [exact Hin|].
      rewrite Hst. reflexivity. }
    rewrite Hnone in Hf. exact Hf.
Qed.

End AnyStore.

(** ** UpdateByName when nothing matches *)

Section NoMatch.

Context {bson : Bson} {S : Type}.

Variable col : Collection S.

Ltac run_handler :=
  unfold updateUserByName, try_next, bind, await_updateOne, await, send,
    to_String, ret, throw, init_world;
  simpl.

(** With both names given and a store that reports [matchedCount = 0],
    the handler writes the 404 reply and then goes on to the 200 reply:
    a recording response holds both, and Express's response keeps the
    404 and throws on the second [json], which reaches [next]. *)
Lemma updateUserByName_zero_match (req : Request) (st st' : S)
  (old : string) (r : UpdateResult) :
  truthy_field query_truthy (query_name req) = true ->
  truthy_field js_truthy (body_name req) = true ->
  String_ (query_name req) = Some old ->
  updateOne col (ByName old) (body_name req) st = (Fulfilled r, st') ->
  matchedCount r = 0 ->
  res_log (updateUserByName col req RecordingResponse (init_world st))
  = [mkReply 404 (Message "User not found");
     mkReply 200 (Message "User updated successfully")]
  /\
  res_log (updateUserByName col req ExpressResponse (init_world st))
  = [mkReply 404 (Message "User not found")]
  /\
  next_log (updateUserByName col req ExpressResponse (init_world st))
  = [ERR_HTTP_HEADERS_SENT].
Proof.
  intros Hq Hb Hs Hup Hm. run_handler. rewrite Hq, Hb. simpl.
  rewrite Hs. simpl. rewrite Hup. simpl. rewrite Hm. simpl. auto.
Qed.

End NoMatch.

(** ** The handlers over the store model *)

Section OnMemStore.

Context {bson : Bson}.

Variable ack : bool.
Variable pkFactory : list Doc -> ObjectId.

Local Abbreviation store := (MemStore.collection ack pkFactory).

Import MemStore.

Ltac run_handler :=
  unfold createUser, getUserByName, getUserById, updateUserByName,
    updateUserById, deleteUserById, deleteUserByName, try_next, bind,
    await_insertOne, await_findOne, await_updateOne,
    await_findOneAndUpdate, await_findOneAndDelete, await_deleteOne,
    await, send, construct_ObjectId, to_String, console_log_received, ret,
    throw, init_world, answered;
  simpl.

(** C1: UpdateByName("Old Name", "New Name") on an empty store: no record
    matches, and the handler writes two replies on a recording response,
    the 404 "User not found" followed by the 200 "User updated
    successfully"; on Express's response the 404 is sent and the second
    reply throws into [next]. *)
Theorem updateUserByName_no_match_replies_twice :
  let req := rename_request (Some (QString "Old Name"))
               (Some (JString "New Name")) in
  res_log (updateUserByName store req RecordingResponse (init_world []))
  = [mkReply 404 (Message "User not found");
     mkReply 200 (Message "User updated successfully")]
  /\
  updateUserByName store req ExpressResponse (init_world [])
  = {| db := [];
       db_log := [CallUpdateOne (ByName "Old Name")
                    (Some (JString "New Name"))];
       res_log := [mkReply 404 (Message "User not found")];
       next_log := [ERR_HTTP_HEADERS_SENT] |}.
Proof. split; reflexivity. Qed.



(** C5: DeleteByName with a non-empty string name.  When some record
    has exactly that name, the first such record is dropped, so the
    store holds one record fewer, and the answer is 200 with the message
    "User deleted successfully" and no record.  When no record has that
    name, the store is unchanged and the answer is 404. *)
Theorem deleteUserByName_count (s : string) (st : list Doc)
  (res : Response) :
  s <> "" ->
  let w := deleteUserByName store (query_only (Some (QString s))) res
             (init_world st) in
  ((exists d, In d st /\ name d = JString s) ->
   (exists l1 u l2,
      st = l1 ++ u :: l2 /\ name u = JString s /\ db w = l1 ++ l2) /\
   List.length (db w) + 1 = List.length st /\
   res_log w = [mkReply 200 (Message "User deleted successfully")] /\
   next_log w = [])
  /\
  ((forall d, In d st -> name d <> JString s) ->
   w = answered st [CallDeleteOne (ByName s)] 404
         (Message "User not found")).
Proof.
  intros Hs w.
  pose proof (nonempty_query_truthy Hs) as Hq. simpl in Hq.
  split.
  - intros (d & Hin & Hd).
    destruct (find_some_of_In (ByName s) st d Hin) as [u Hu].
    { now apply matches_ByName. }
    destruct (find_first (ByName s) (fun x => x) st Hu)
      as (l1 & l2 & Hst & Hm & _ & _ & Hrm).
    apply matches_ByName in Hm.
    assert (Hw : w = answered (l1 ++ l2) [CallDeleteOne (ByName s)] 200
                       (Message "User deleted successfully")).
    { unfold w. run_handler. rewrite Hq. simpl. rewrite Hu. simpl.
      rewrite Hrm. now destruct res. }
    rewrite Hw. simpl. repeat split.
    + exists l1, u, l2. auto.
    + rewrite Hst, !length_app. simpl. lia.
  - intros Hnone.
    assert (Hf : find (matches (ByName s)) st = None).
    { apply find_none_iff. intros x Hx.
      destruct (matches (ByName s) x) eqn:E; [|reflexivity].
      apply matches_ByName in E. now apply Hnone in Hx. }
    destruct (find_nothing (ByName s) (fun x => x) st Hf) as [_ Hrm].
    unfold w. run_handler. rewrite Hq. simpl. rewrite Hf. simpl.
    rewrite Hrm. now destruct res.
Qed.

(** C6: DeleteById with an id the identifier library accepts.  When a
    record has the id, the first such record is removed and the answer
    is 200 with the message "User deleted successfully" and that record
    as it was; when none has it, the answer is 404 and the store is
    unchanged. *)
Theorem deleteUserById_returns_prior (id : string) (oid : ObjectId)
  (st : list Doc) (res : Response) :
  ObjectId_isValid id = true ->
  new_ObjectId id = Some oid ->
  let w := deleteUserById store (id_request id None) res (init_world st) in
  ((exists d, In d st /\ _id d = oid) ->
   exists l1 u l2,
     st = l1 ++ u :: l2 /\
     _id u = oid /\
     (forall x, In x l1 -> _id x <> oid) /\
     w = answered (l1 ++ l2) [CallFindOneAndDelete (ById oid)] 200
           (MessageUser "User deleted successfully" u))
  /\
  ((forall d, In d st -> _id d <> oid) ->
   w = answered st [CallFindOneAndDelete (ById oid)] 404
         (Message "User not found")).
Proof.
  intros Hvalid Hnew w. split.
  - intros (d & Hin & Hd).
    destruct (find_some_of_In (ById oid) st d Hin) as [u Hu].
    { now apply matches_ById. }
    destruct (find_first (ById oid) (fun x => x) st Hu)
      as (l1 & l2 & Hst & Hm & Hl & _ & Hrm).
    apply matches_ById in Hm.
    exists l1, u, l2. repeat split; auto.
    { intros x Hx E. apply Hl in Hx.
      apply (proj2 (matches_ById oid x)) in E. congruence. }
    unfold w. run_handler. rewrite Hvalid. simpl. rewrite Hnew. simpl.
    rewrite Hu. simpl. rewrite Hrm. now destruct res.
  - intros Hnone.
    assert (Hf : find (matches (ById oid)) st = None).
    { apply find_none_iff. intros x Hx.
      destruct (matches (ById oid) x) eqn:E; [|reflexivity].
      apply matches_ById in E. now apply Hnone in Hx. }
    destruct (find_nothing (ById oid) (fun x => x) st Hf) as [_ Hrm].
    unfold w. run_handler. rewrite Hvalid. simpl. rewrite Hnew. simpl.
    rewrite Hf. simpl. rewrite Hrm. now destruct res.
Qed.

(** C9: UpdateByName(old, new) with non-empty names, as for "Old Name"
    and "New Name", on a store in which some record is named [old]: the
    store after the request is the store before it with one record, the
    first one named [old], renamed to [new] under the same id; every
    other record is as it was. *)
Theorem updateUserByName_frame (old new : string) (st : list Doc)
  (res : Response) :
  old <> "" ->
  new <> "" ->
  (exists d, In d st /\ name d = JString old) ->
  exists l1 u l2,
    st = l1 ++ u :: l2 /\
    name u = JString old /\
    (forall x, In x l1 -> name x <> JString old) /\
    db (updateUserByName store
          (rename_request (Some (QString old)) (Some (JString new))) res
          (init_world st))
    = l1 ++ mkDoc (_id u) (JString new) :: l2.
Proof.
  intros Hold Hnew (d & Hin & Hd).
  pose proof (nonempty_query_truthy Hold) as Hq. simpl in Hq.
  pose proof (nonempty_truthy Hnew) as Hb. simpl in Hb.
  destruct (find_some_of_In (ByName old) st d Hin) as [u Hu].
  { now apply matches_ByName. }
  destruct (find_first (ByName old) (set_name (JString new)) st Hu)
    as (l1 & l2 & Hst & Hm & Hl & Hup & _).
  apply matches_ByName in Hm.
  exists l1, u, l2. repeat split; auto.
  { intros x Hx E. apply Hl in Hx.
    apply (proj2 (matches_ByName old x)) in E. congruence. }
  run_handler. rewrite Hq, Hb. simpl. rewrite Hu. simpl.
  rewrite Hup. now destruct res.
Qed.

End OnMemStore.

(** ** The properties at sample requests *)

Section SampleRequests.

Import Sample.

Local Abbreviation B := bson_hex24.

Local Existing Instance bson_hex24.

(** Create with an empty name, on the sample store. *)
Lemma createUser_validates_then_creates_witness :
  createUser store (body_only (Some (JString ""))) ExpressResponse
    (init_world users)
  = answered users [] 400 (Message "Name is required")
  /\
  createUser store (body_only (Some (JString "John Doe"))) ExpressResponse
    (init_world users)
  = answered (users ++ [@mkDoc B 4%N (JString "John Doe")])
      [CallInsertOne (Some (JString "John Doe"))] 201
      (MessageNewUser "User created successfully" 4%N
         (Some (JString "John Doe"))).
Proof.
  split.
  - apply (@createUser_validates_then_creates B _ store
             (body_only (Some (JString ""))) ExpressResponse users).
    right. reflexivity.
  - apply (proj2 (proj2 (@createUser_validates_then_creates B _ store
             (body_only (Some (JString "John Doe"))) ExpressResponse users))
             (@Build_InsertOneResult B true 4%N)).
    + discriminate.
    + reflexivity.
    + reflexivity.
Defined.

Lemma createUser_unacknowledged_witness :
  createUser unacknowledged (body_only (Some (JString "John Doe")))
    ExpressResponse (init_world users)
  = answered (users ++ [@mkDoc B 4%N (JString "John Doe")])
      [CallInsertOne (Some (JString "John Doe"))] 500
      (Message "Failed to create user").
Proof.
  apply (@createUser_unacknowledged B _ unacknowledged
           (body_only (Some (JString "John Doe"))) ExpressResponse users
           (users ++ [@mkDoc B 4%N (JString "John Doe")]) "John Doe"
           (@Build_InsertOneResult B false 4%N)).
  - discriminate.
  - reflexivity.
  - reflexivity.
  - reflexivity.
Defined.

Lemma invalid_id_rejected_witness :
  getUserById store (id_request "invalid-id" None) ExpressResponse
    (init_world users)
  = answered users [] 400 (Message "Invalid user ID")
  /\
  deleteUserById store (id_request "invalid-id" None) ExpressResponse
    (init_world users)
  = answered users [] 400 (Message "Invalid user ID").
Proof.
  apply (@invalid_id_rejected B _ store (id_request "invalid-id" None)
           ExpressResponse users).
  reflexivity.
Defined.

Lemma validation_precedes_store_witness :
  db_log (router store PUT_users
            (rename_request None (Some (JString "New Name")))
            ExpressResponse (init_world users)) = []
  /\
  db (router store PUT_users
        (rename_request None (Some (JString "New Name")))
        ExpressResponse (init_world users)) = users.
Proof.
  apply (@validation_precedes_store B _ store PUT_users
           (rename_request None (Some (JString "New Name")))
           ExpressResponse users
           (mkReply 400
              (Message
                 "Both old name (query) and new name (body) are required"))).
  - left. reflexivity.
  - reflexivity.
Defined.




Lemma deleteUserByName_count_witness :
  List.length
    (db (deleteUserByName store (query_only (Some (QString "John Doe")))
           ExpressResponse (init_world users))) + 1
  = List.length users
  /\
  deleteUserByName store (query_only (Some (QString "Nobody")))
    ExpressResponse (init_world users)
  = answered users [CallDeleteOne (ByName "Nobody")] 404
      (Message "User not found").
Proof.
  split.
  - apply (@deleteUserByName_count B true pkFactory "John Doe" users
             ExpressResponse); try discriminate.
    exists (@mkDoc B 2%N (JString "John Doe")). split.
    + right. left. reflexivity.
    + reflexivity.
  - apply (@deleteUserByName_count B true pkFactory "Nobody" users
             ExpressResponse); try discriminate.
    intros d [<-|[<-|[<-|[]]]]; discriminate.
Defined.

Lemma deleteUserById_returns_prior_witness :
  (exists l1 u l2,
     users = l1 ++ u :: l2 /\
     _id u = 2%N /\
     (forall x, In x l1 -> _id x <> 2%N) /\
     deleteUserById store (id_request id_two None) ExpressResponse
       (init_world users)
     = answered (l1 ++ l2) [CallFindOneAndDelete (ById 2%N)] 200
         (MessageUser "User deleted successfully" u))
  /\
  deleteUserById store (id_request id_absent None) ExpressResponse
    (init_world users)
  = answered users
      [CallFindOneAndDelete (ById 29969216783896667537020769255%N)] 404
      (Message "User not found").
Proof.
  split.
  - apply (@deleteUserById_returns_prior B true pkFactory id_two 2%N users
             ExpressResponse); try reflexivity.
    exists (@mkDoc B 2%N (JString "John Doe")). split.
    + right. left. reflexivity.
    + reflexivity.
  - apply (@deleteUserById_returns_prior B true pkFactory id_absent
             29969216783896667537020769255%N users ExpressResponse);
      try reflexivity.
    intros d [<-|[<-|[<-|[]]]]; discriminate.
Defined.

Lemma updateUserByName_frame_witness :
  exists l1 u l2,
    users = l1 ++ u :: l2 /\
    name u = JString "Old Name" /\
    (forall x, In x l1 -> name x <> JString "Old Name") /\
    db (updateUserByName store
          (rename_request (Some (QString "Old Name"))
             (Some (JString "New Name")))
          ExpressResponse (init_world users))
    = l1 ++ @mkDoc B (_id u) (JString "New Name") :: l2.
Proof.
  apply (@updateUserByName_frame B true pkFactory "Old Name" "New Name"
           users ExpressResponse); try discriminate.
  exists (@mkDoc B 3%N (JString "Old Name")). split.
  - right. right. left. reflexivity.
  - reflexivity.
Defined.

End SampleRequests.

(** ** The scenario of the specification and the rejection tests *)

Section Scenario.

Import Sample.

Local Existing Instance bson_hex24.

(** Create "John Doe" on an empty store, find it by name under the id
    that Create reported, delete it by name, and fail to find it again. *)
Example create_find_delete_find :
  let john := Some (QString "John Doe") in
  let w1 := createUser store (body_only (Some (JString "John Doe")))
              ExpressResponse (init_world []) in
  let w2 := getUserByName store (query_only john) ExpressResponse
              (init_world (db w1)) in
  let w3 := deleteUserByName store (query_only john) ExpressResponse
              (init_world (db w2)) in
  let w4 := getUserByName store (query_only john) ExpressResponse
              (init_world (db w3)) in
  res_log w1
  = [mkReply 201
       (MessageNewUser "User created successfully" 1%N
          (Some (JString "John Doe")))]
  /\ res_log w2 = [mkReply 200 (Record_ (mkDoc 1%N (JString "John Doe")))]
  /\ res_log w3 = [mkReply 200 (Message "User deleted successfully")]
  /\ res_log w4 = [mkReply 404 (Message "User not found")].
Proof. repeat split. Qed.

(** A rejected store call ends in [next(error)] and no reply. *)
Example rejection_reaches_next :
  forall route : Route,
    let w := router (rejecting "Database error") route
               {| body_name := Some (JString "New Name");
                  query_name := Some (QString "John Doe");
                  params_id := id_absent |}
               ExpressResponse (init_world users) in
    res_log w = [] /\ next_log w = [StoreRejected "Database error"].
Proof. intros []; split; reflexivity. Qed.

End Scenario.

(** * Further properties of the handlers *)

(** ** Over any store *)

Section AnyStoreMore.

Context {bson : Bson} {S : Type}.

Variable col : Collection S.

Ltac run_handler :=
  unfold createUser, getUserByName, getUserById, updateUserByName,
    updateUserById, deleteUserById, deleteUserByName, try_next, bind,
    await_insertOne, await_findOne, await_updateOne,
    await_findOneAndUpdate, await_findOneAndDelete, await_deleteOne,
    await, send, construct_ObjectId, to_String, console_log_received, ret,
    throw, init_world, answered;
  simpl.

Ltac split_cases :=
  repeat (match goal with
          | |- context [match ?x with _ => _ end] =>
              lazymatch x with
              | context [match _ with _ => _ end] => fail
              | _ => destruct x eqn:?
              end
          end; simpl).

(** X1: every handler but UpdateByName ends a request in exactly one
    way, once: either one reply on [res] or one error to [next]. *)
Theorem one_outcome_per_request (route : Route) (req : Request)
  (res : Response) (st : S) :
  route <> PUT_users ->
  List.length (res_log (router col route req res (init_world st)))
  + List.length (next_log (router col route req res (init_world st))) = 1.
Proof.
  intros Hr. destruct route; try (now elim Hr); simpl;
    run_handler; split_cases; reflexivity.
Qed.

(** X2: UpdateByName with both names given, an old name that [String]
    converts to [old], and a store that reports at least one matched
    record answers once, 200 "User updated successfully", and hands
    nothing to [next]. *)
Theorem updateUserByName_matched (req : Request) (res : Response)
  (st st' : S) (old : string) (r : UpdateResult) :
  truthy_field query_truthy (query_name req) = true ->
  truthy_field js_truthy (body_name req) = true ->
  String_ (query_name req) = Some old ->
  updateOne col (ByName old) (body_name req) st = (Fulfilled r, st') ->
  matchedCount r <> 0 ->
  updateUserByName col req res (init_world st)
  = answered st' [CallUpdateOne (ByName old) (body_name req)]
      200 (Message "User updated successfully").
Proof.
  intros Hq Hb Hs Hup Hm. run_handler. rewrite Hq, Hb. simpl.
  rewrite Hs. simpl. rewrite Hup. simpl.
  destruct (matchedCount r); [now elim Hm|]. simpl. now destruct res.
Qed.

(** X3: whether a request is answered 400 is decided by the request
    alone: a handler writes a reply with status 400 exactly when its
    guard fails and it did not throw before reaching the guard,
    whatever the store holds or answers. *)
Theorem answers_400_iff_guard (route : Route) (req : Request)
  (res : Response) (st : S) :
  (exists r, In r (res_log (router col route req res (init_world st)))
             /\ status r = 400)
  <-> guard_fails route req = true
      /\ throws_before_guard route req = false.
Proof.
  destruct route; simpl;
    repeat match goal with
      | |- context [truthy_field ?t ?x] =>
          destruct (truthy_field t x) eqn:?
      | |- context [typeof_string ?x] => destruct (typeof_string x) eqn:?
      | |- context [ObjectId_isValid ?x] =>
          destruct (ObjectId_isValid x) eqn:?
      | |- context [ToString_field ?x] =>
          destruct (ToString_field x) eqn:?
      end;
    run_handler;
    repeat match goal with
      | H : _ = true |- _ => rewrite H
      | H : _ = false |- _ => rewrite H
      | H : ToString_field _ = _ |- _ => rewrite H
      end;
    simpl; split_cases;
    (split;
     [ intros (r & Hin & Hst); simpl in Hin;
       repeat (destruct Hin as [<-|Hin]; [try discriminate Hst|]);
       try contradiction; split; reflexivity
     | intros [Hg Ht]; try discriminate Hg; try discriminate Ht;
       eexists; (split; [left; reflexivity|]); reflexivity ]).
Qed.

(** X4: when every store call is rejected, a request that passes its
    guard gets no reply at all: the handler hands exactly one error to
    [next] and writes nothing on [res]. *)
Theorem store_down_no_reply (route : Route) (req : Request)
  (res : Response) (st : S) :
  rejects_all col ->
  guard_fails route req = false ->
  res_log (router col route req res (init_world st)) = []
  /\ exists e, next_log (router col route req res (init_world st)) = [e].
Proof.
  intros (Hi & Hf & Hu & Hfu & Hfd & Hd) Hg.
  revert Hg.
  destruct route; simpl;
    repeat match goal with
      | |- context [truthy_field ?t ?x] =>
          destruct (truthy_field t x) eqn:?
      | |- context [typeof_string ?x] => destruct (typeof_string x) eqn:?
      | |- context [ObjectId_isValid ?x] =>
          destruct (ObjectId_isValid x) eqn:?
      end;
    intros Hg; try discriminate Hg; clear Hg;
    unfold createUser, getUserByName, getUserById, updateUserByName,
      updateUserById, deleteUserById, deleteUserByName, try_next, bind,
      await_insertOne, await_findOne, await_updateOne,
      await_findOneAndUpdate, await_findOneAndDelete, await_deleteOne,
      construct_ObjectId, to_String, console_log_received;
    repeat match goal with
      | H : _ = true |- _ => rewrite H
      end;
    cbn [negb orb];
    try (destruct (ToString_field (body_name req));
         [|split; [reflexivity | eexists; reflexivity]]);
    try (destruct (String_ (query_name req));
         [|split; [reflexivity | eexists; reflexivity]]);
    try (destruct (new_ObjectId (params_id req));
         [|split; [reflexivity | eexists; reflexivity]]);
    unfold ret, await; cbn [db init_world];
    match goal with
    | |- context [insertOne col ?v ?s] =>
        destruct (Hi v s) as [e He]; destruct (insertOne col v s)
    | |- context [findOne col ?f ?s] =>
        destruct (Hf f s) as [e He]; destruct (findOne col f s)
    | |- context [updateOne col ?f ?v ?s] =>
        destruct (Hu f v s) as [e He]; destruct (updateOne col f v s)
    | |- context [findOneAndDelete col ?f ?s] =>
        destruct (Hfd f s) as [e He]; destruct (findOneAndDelete col f s)
    | |- context [deleteOne col ?f ?s] =>
        destruct (Hd f s) as [e He]; destruct (deleteOne col f s)
    end;
    cbn [fst] in He; subst; cbn [res_log next_log app];
    (split; [reflexivity | eexists; reflexivity]).
Qed.

(** X5: a [name] query parameter that is not a string (a repeated
    parameter arrives as an array, a bracketed one as an object) is
    refused by DeleteByName with 400, whereas FindByName and UpdateByName
    pass it through [String]: when the conversion gives a text they
    query the store for it, and when it throws they hand the
    [TypeError] to [next] without a reply or a store call. *)
Theorem non_string_query_name (q : QueryValue) (v : option JsValue)
  (res : Response) (st : S) :
  typeof_string (Some q) = false ->
  truthy_field js_truthy v = true ->
  deleteUserByName col (query_only (Some q)) res (init_world st)
  = answered st [] 400 (Message "Name query parameter is required")
  /\
  match js_String q with
  | Some s =>
      db_log (getUserByName col (query_only (Some q)) res (init_world st))
      = [CallFindOne (ByName s)]
      /\
      db_log (updateUserByName col (rename_request (Some q) v) res
                (init_world st))
      = [CallUpdateOne (ByName s) v]
  | None =>
      getUserByName col (query_only (Some q)) res (init_world st)
      = {| db := st; db_log := []; res_log := [];
           next_log := [JsTypeError] |}
      /\
      updateUserByName col (rename_request (Some q) v) res (init_world st)
      = {| db := st; db_log := []; res_log := [];
           next_log := [JsTypeError] |}
  end.
Proof.
  intros Hq Hv.
  assert (Ht : query_truthy q = true).
  { destruct q; [discriminate Hq | reflexivity | reflexivity]. }
  split.
  - run_handler. simpl in Hq. rewrite Ht.
    destruct q; [discriminate Hq | |]; simpl; now destruct res.
  - destruct (js_String q) as [s|] eqn:Hs; split; run_handler;
      rewrite Ht, ?Hv; simpl; rewrite Hs; simpl;
      try reflexivity; split_cases; reflexivity.
Qed.

(** X24: UpdateById logs the received id and name before it checks
    anything.  When the body name cannot be converted to a string (an
    object with an own [toString] key, also inside an array), the
    handler ends there: the [TypeError] goes to [next], nothing is
    written on [res] and the store is not called, whether the id is
    valid or not. *)
Theorem updateUserById_log_throws (req : Request) (res : Response)
  (st : S) :
  ToString_field (body_name req) = None ->
  updateUserById col req res (init_world st)
  = {| db := st; db_log := []; res_log := []; next_log := [JsTypeError] |}.
Proof.
  intros H. run_handler. rewrite H. reflexivity.
Qed.

End AnyStoreMore.

(** ** Over the store model *)

Section OnMemStoreMore.

Context {bson : Bson}.

Variable ack : bool.
Variable pkFactory : list Doc -> ObjectId.

Local Abbreviation store := (MemStore.collection ack pkFactory).

Import MemStore.

Ltac run_handler :=
  unfold createUser, getUserByName, getUserById, updateUserByName,
    updateUserById, deleteUserById, deleteUserByName, try_next, bind,
    await_insertOne, await_findOne, await_updateOne,
    await_findOneAndUpdate, await_findOneAndDelete, await_deleteOne,
    await, send, construct_ObjectId, to_String, console_log_received, ret,
    throw, init_world, answered;
  simpl.

Ltac split_cases :=
  repeat (match goal with
          | |- context [match ?x with _ => _ end] =>
              lazymatch x with
              | context [match _ with _ => _ end] => fail
              | _ => destruct x eqn:?
              end
          end; simpl).

(** *** Lists of records *)

Lemma update_first_ids (f : Filter) (v : JsValue) (l : list Doc) :
  map (@_id _) (update_first f (set_name v) l) = map (@_id _) l.
Proof.
  induction l as [|d rest IH]; simpl; [reflexivity|].
  destruct (matches f d); simpl; [reflexivity | now rewrite IH].
Qed.

Lemma remove_first_length (f : Filter) (l : list Doc) :
  List.length (remove_first f l)
  = List.length l
    - match find (matches f) l with Some _ => 1 | None => 0 end.
Proof.
  induction l as [|d rest IH]; simpl; [reflexivity|].
  destruct (matches f d); simpl; [lia|].
  rewrite IH. destruct (find (matches f) rest) eqn:E; [|lia].
  destruct rest; [discriminate E | simpl; lia].
Qed.

Lemma remove_first_incl (f : Filter) (l : list Doc) (x : Doc) :
  In x (remove_first f l) -> In x l.
Proof.
  induction l as [|d rest IH]; simpl; [auto|].
  destruct (matches f d); simpl; intuition.
Qed.

Lemma remove_first_ids_NoDup (f : Filter) (l : list Doc) :
  NoDup (map (@_id _) l) -> NoDup (map (@_id _) (remove_first f l)).
Proof.
  induction l as [|d rest IH]; simpl; [auto|].
  intros H. inversion H as [|? ? Hnot Hrest]; subst.
  destruct (matches f d); simpl; [assumption|].
  constructor; [|auto].
  intros Hin. apply Hnot. apply in_map_iff in Hin.
  destruct Hin as (x & Hx & Hin). apply in_map_iff.
  exists x. split; [assumption|]. now apply remove_first_incl in Hin.
Qed.

(** *** What each handler leaves in the store *)

Lemma db_after (route : Route) (req : Request) (res : Response)
  (st : list Doc) :
  let w := router store route req res (init_world st) in
  match route with
  | POST_users =>
      db w = if truthy_field js_truthy (body_name req)
             then st ++ [mkDoc (pkFactory st) (stored (body_name req))]
             else st
  | GET_users | GET_users_id => db w = st
  | PUT_users | PUT_users_id =>
      db w = st \/ exists f v, db w = update_first f (set_name v) st
  | DELETE_users | DELETE_users_id =>
      db w = st \/ exists f, db w = remove_first f st
  end.
Proof.
  destruct route; simpl.
  - destruct (truthy_field js_truthy (body_name req)) eqn:E;
      run_handler; rewrite E; simpl; split_cases; reflexivity.
  - run_handler; split_cases; reflexivity.
  - run_handler; split_cases; reflexivity.
  - run_handler; split_cases; eauto.
  - run_handler; split_cases; eauto.
  - run_handler; split_cases; eauto.
  - run_handler; split_cases; eauto.
Qed.

(** X6: FindByName with a non-empty name reads the store and leaves it
    as it is: it answers 404 when no record has the name, and otherwise
    200 with the first record, in insertion order, that has it. *)
Theorem getUserByName_first_match (s : string) (st : list Doc)
  (res : Response) :
  s <> "" ->
  let w := getUserByName store (query_only (Some (QString s))) res
             (init_world st) in
  ((forall d, In d st -> name d <> JString s) ->
   w = answered st [CallFindOne (ByName s)] 404 (Message "User not found"))
  /\
  ((exists d, In d st /\ name d = JString s) ->
   exists l1 u l2,
     st = l1 ++ u :: l2 /\
     name u = JString s /\
     (forall x, In x l1 -> name x <> JString s) /\
     w = answered st [CallFindOne (ByName s)] 200 (Record_ u)).
Proof.
  intros Hs w.
  pose proof (nonempty_query_truthy Hs) as Hq. simpl in Hq.
  split.
  - intros Hnone.
    assert (Hf : find (matches (ByName s)) st = None).
    { apply find_none_iff. intros x Hx.
      destruct (matches (ByName s) x) eqn:E; [|reflexivity].
      apply matches_ByName in E. now apply Hnone in Hx. }
    unfold w. run_handler. rewrite Hq. simpl. rewrite Hf. simpl.
    now destruct res.
  - intros (d & Hin & Hd).
    destruct (find_some_of_In (ByName s) st d Hin) as [u Hu].
    { now apply matches_ByName. }
    destruct (find_first (ByName s) (fun x => x) st Hu)
      as (l1 & l2 & Hst & Hm & Hl & _ & _).
    apply matches_ByName in Hm.
    exists l1, u, l2. repeat split; auto.
    { intros x Hx E. apply Hl in Hx.
      apply (proj2 (matches_ByName s x)) in E. congruence. }
    unfold w. run_handler. rewrite Hq. simpl. rewrite Hu. simpl.
    now destruct res.
Qed.

(** X7: FindById with an id the identifier library accepts reads the
    store and leaves it as it is: 404 when no record has the id,
    otherwise 200 with the first record that has it. *)
Theorem getUserById_lookup (id : string) (oid : ObjectId)
  (st : list Doc) (res : Response) :
  ObjectId_isValid id = true ->
  new_ObjectId id = Some oid ->
  let w := getUserById store (id_request id None) res (init_world st) in
  ((forall d, In d st -> _id d <> oid) ->
   w = answered st [CallFindOne (ById oid)] 404 (Message "User not found"))
  /\
  ((exists d, In d st /\ _id d = oid) ->
   exists l1 u l2,
     st = l1 ++ u :: l2 /\
     _id u = oid /\
     (forall x, In x l1 -> _id x <> oid) /\
     w = answered st [CallFindOne (ById oid)] 200 (Record_ u)).
Proof.
  intros Hvalid Hnew w. split.
  - intros Hnone.
    assert (Hf : find (matches (ById oid)) st = None).
    { apply find_none_iff. intros x Hx.
      destruct (matches (ById oid) x) eqn:E; [|reflexivity].
      apply matches_ById in E. now apply Hnone in Hx. }
    unfold w. run_handler. rewrite Hvalid. simpl. rewrite Hnew. simpl.
    rewrite Hf. simpl. now destruct res.
  - intros (d & Hin & Hd).
    destruct (find_some_of_In (ById oid) st d Hin) as [u Hu].
    { now apply matches_ById. }
    destruct (find_first (ById oid) (fun x => x) st Hu)
      as (l1 & l2 & Hst & Hm & Hl & _ & _).
    apply matches_ById in Hm.
    exists l1, u, l2. repeat split; auto.
    { intros x Hx E. apply Hl in Hx.
      apply (proj2 (matches_ById oid x)) in E. congruence. }
    unfold w. run_handler. rewrite Hvalid. simpl. rewrite Hnew. simpl.
    rewrite Hu. simpl. now destruct res.
Qed.

(** X8: the two GET handlers never change the store, whatever the
    request: valid or not, found or not. *)
Theorem reads_leave_store (route : Route) (req : Request) (res : Response)
  (st : list Doc) :
  route = GET_users \/ route = GET_users_id ->
  db (router store route req res (init_world st)) = st.
Proof.
  intros [-> | ->];
    [ exact (db_after GET_users req res st)
    | exact (db_after GET_users_id req res st) ].
Qed.

(** X9: the two PUT handlers never add, remove, reorder or re-identify
    records: the list of ids in the store is the same before and after
    any update request. *)
Theorem updates_keep_ids (route : Route) (req : Request) (res : Response)
  (st : list Doc) :
  route = PUT_users \/ route = PUT_users_id ->
  map (@_id _) (db (router store route req res (init_world st)))
  = map (@_id _) st.
Proof.
  intros [-> | ->].
  - destruct (db_after PUT_users req res st) as [H | (f & v & H)];
      rewrite H; [reflexivity | apply update_first_ids].
  - destruct (db_after PUT_users_id req res st) as [H | (f & v & H)];
      rewrite H; [reflexivity | apply update_first_ids].
Qed.

(** X10: how the number of records moves.  Create adds exactly one
    record when the name passes the guard (acknowledged or not) and none
    otherwise; a delete request removes at most one record; every other
    request keeps the count. *)
Theorem record_count (route : Route) (req : Request) (res : Response)
  (st : list Doc) :
  let n := List.length (db (router store route req res (init_world st))) in
  match route with
  | POST_users =>
      n = List.length st
          + (if truthy_field js_truthy (body_name req) then 1 else 0)
  | DELETE_users | DELETE_users_id =>
      n <= List.length st /\ List.length st <= n + 1
  | _ => n = List.length st
  end.
Proof.
  intros n. unfold n. pose proof (db_after route req res st) as H.
  destruct route; cbv zeta in H; cbn [router] in H |- *.
  - rewrite H. destruct (truthy_field js_truthy (body_name req)).
    + rewrite length_app. reflexivity.
    + lia.
  - now rewrite H.
  - now rewrite H.
  - destruct H as [H | (f & v & H)]; rewrite H; [reflexivity|].
    rewrite <- (length_map (@_id _)), update_first_ids.
    apply length_map.
  - destruct H as [H | (f & v & H)]; rewrite H; [reflexivity|].
    rewrite <- (length_map (@_id _)), update_first_ids.
    apply length_map.
  - destruct H as [H | (f & H)]; rewrite H; [lia|].
    rewrite remove_first_length.
    destruct (find (matches f) st) eqn:E; [|lia].
    destruct st; [discriminate E | simpl; lia].
  - destruct H as [H | (f & H)]; rewrite H; [lia|].
    rewrite remove_first_length.
    destruct (find (matches f) st) eqn:E; [|lia].
    destruct st; [discriminate E | simpl; lia].
Qed.

(** X11: if the id factory never hands out an id that is in use, then
    every handler keeps the ids of the store pairwise distinct. *)
Theorem ids_stay_distinct (route : Route) (req : Request) (res : Response)
  (st : list Doc) :
  (forall l, ~ In (pkFactory l) (map (@_id _) l)) ->
  NoDup (map (@_id _) st) ->
  NoDup (map (@_id _) (db (router store route req res (init_world st)))).
Proof.
  intros Hfresh Hnd. pose proof (db_after route req res st) as H.
  destruct route; cbv zeta in H; cbn [router] in H |- *.
  - rewrite H. destruct (truthy_field js_truthy (body_name req)); [|auto].
    rewrite map_app. simpl.
    apply NoDup_app; [assumption | repeat constructor; intros [] |].
    intros x Hx [<- | []]. exact (Hfresh st Hx).
  - now rewrite H.
  - now rewrite H.
  - destruct H as [H | (f & v & H)]; rewrite H; [assumption|].
    now rewrite update_first_ids.
  - destruct H as [H | (f & v & H)]; rewrite H; [assumption|].
    now rewrite update_first_ids.
  - destruct H as [H | (f & H)]; rewrite H; [assumption|].
    now apply remove_first_ids_NoDup.
  - destruct H as [H | (f & H)]; rewrite H; [assumption|].
    now apply remove_first_ids_NoDup.
Qed.

(** *** Requests in sequence *)

Lemma find_over_app (f : Filter) (l1 l2 : list Doc) :
  find (matches f) (l1 ++ l2)
  = match find (matches f) l1 with
    | Some d => Some d
    | None => find (matches f) l2
    end.
Proof.
  induction l1 as [|d rest IH]; simpl; [reflexivity|].
  now destruct (matches f d).
Qed.

Lemma find_none_of_names (s : string) (l : list Doc) :
  (forall d, In d l -> name d <> JString s) ->
  find (matches (ByName s)) l = None.
Proof.
  intros Hnone. apply find_none_iff. intros x Hx.
  destruct (matches (ByName s) x) eqn:E; [|reflexivity].
  apply matches_ByName in E. now apply Hnone in Hx.
Qed.

Lemma find_none_of_ids (o : ObjectId) (l : list Doc) :
  (forall d, In d l -> _id d <> o) ->
  find (matches (ById o)) l = None.
Proof.
  intros Hnone. apply find_none_iff. intros x Hx.
  destruct (matches (ById o) x) eqn:E; [|reflexivity].
  apply matches_ById in E. now apply Hnone in Hx.
Qed.

Lemma remove_first_over_app (f : Filter) (l1 l2 : list Doc) :
  find (matches f) l1 = None ->
  remove_first f (l1 ++ l2) = l1 ++ remove_first f l2.
Proof.
  induction l1 as [|d rest IH]; simpl; [reflexivity|].
  destruct (matches f d); [discriminate|]. intros H. now rewrite IH.
Qed.

(** The handlers on the store model, by what [find] gives. *)
Lemma getUserByName_mem (s : string) (st : list Doc) (res : Response) :
  s <> "" ->
  getUserByName store (query_only (Some (QString s))) res (init_world st)
  = match find (matches (ByName s)) st with
    | Some u => answered st [CallFindOne (ByName s)] 200 (Record_ u)
    | None =>
        answered st [CallFindOne (ByName s)] 404 (Message "User not found")
    end.
Proof.
  intros Hs. pose proof (nonempty_query_truthy Hs) as Hq. simpl in Hq.
  run_handler. rewrite Hq. simpl.
  destruct (find (matches (ByName s)) st); simpl; now destruct res.
Qed.

Lemma deleteUserByName_mem (s : string) (st : list Doc) (res : Response) :
  s <> "" ->
  deleteUserByName store (query_only (Some (QString s))) res
    (init_world st)
  = match find (matches (ByName s)) st with
    | Some _ =>
        answered (remove_first (ByName s) st) [CallDeleteOne (ByName s)]
          200 (Message "User deleted successfully")
    | None =>
        answered st [CallDeleteOne (ByName s)] 404
          (Message "User not found")
    end.
Proof.
  intros Hs. pose proof (nonempty_query_truthy Hs) as Hq. simpl in Hq.
  run_handler. rewrite Hq. simpl.
  destruct (find (matches (ByName s)) st) eqn:E; simpl.
  - now destruct res.
  - destruct (find_nothing (ByName s) (fun x => x) st E) as [_ ->].
    now destruct res.
Qed.

Lemma deleteUserById_mem (id : string) (oid : ObjectId) (st : list Doc)
  (res : Response) :
  ObjectId_isValid id = true ->
  new_ObjectId id = Some oid ->
  deleteUserById store (id_request id None) res (init_world st)
  = match find (matches (ById oid)) st with
    | Some u =>
        answered (remove_first (ById oid) st)
          [CallFindOneAndDelete (ById oid)] 200
          (MessageUser "User deleted successfully" u)
    | None =>
        answered st [CallFindOneAndDelete (ById oid)] 404
          (Message "User not found")
    end.
Proof.
  intros Hv Hn. run_handler. rewrite Hv. simpl. rewrite Hn. simpl.
  destruct (find (matches (ById oid)) st) eqn:E; simpl.
  - now destruct res.
  - destruct (find_nothing (ById oid) (fun x => x) st E) as [_ ->].
    now destruct res.
Qed.

Lemma getUserById_mem (id : string) (oid : ObjectId) (st : list Doc)
  (res : Response) :
  ObjectId_isValid id = true ->
  new_ObjectId id = Some oid ->
  getUserById store (id_request id None) res (init_world st)
  = match find (matches (ById oid)) st with
    | Some u => answered st [CallFindOne (ById oid)] 200 (Record_ u)
    | None =>
        answered st [CallFindOne (ById oid)] 404 (Message "User not found")
    end.
Proof.
  intros Hv Hn. run_handler. rewrite Hv. simpl. rewrite Hn. simpl.
  destruct (find (matches (ById oid)) st); simpl; now destruct res.
Qed.

Lemma createUser_mem_db (s : string) (st : list Doc) (res : Response) :
  s <> "" ->
  db (createUser store (body_only (Some (JString s))) res (init_world st))
  = st ++ [mkDoc (pkFactory st) (JString s)].
Proof.
  intros Hs. pose proof (nonempty_truthy Hs) as Ht.
  pose proof (db_after POST_users (body_only (Some (JString s))) res st)
    as H.
  simpl in H. simpl in Ht. rewrite Ht in H. exact H.
Qed.

(** X12: Create of a name no record has, followed by DeleteByName of
    that name, answers 200 and gives back the store exactly as it was
    before the Create. *)
Theorem create_then_delete_by_name (s : string) (st : list Doc)
  (res res' : Response) :
  s <> "" ->
  (forall d, In d st -> name d <> JString s) ->
  deleteUserByName store (query_only (Some (QString s))) res'
    (init_world
       (db (createUser store (body_only (Some (JString s))) res
              (init_world st))))
  = answered st [CallDeleteOne (ByName s)] 200
      (Message "User deleted successfully").
Proof.
  intros Hs Hnone. rewrite (createUser_mem_db st res Hs).
  rewrite (deleteUserByName_mem _ res' Hs).
  pose proof (@find_none_of_names s st Hnone) as Hf.
  rewrite find_over_app, Hf. simpl. rewrite String.eqb_refl.
  rewrite remove_first_over_app by exact Hf. simpl.
  rewrite String.eqb_refl, app_nil_r. reflexivity.
Qed.

(** X13: with pairwise distinct ids in the store, DeleteById of an
    existing record cannot be repeated: the same request sent again
    answers 404 and changes nothing. *)
Theorem delete_by_id_twice (id : string) (oid : ObjectId)
  (st : list Doc) (res res' : Response) :
  ObjectId_isValid id = true ->
  new_ObjectId id = Some oid ->
  NoDup (map (@_id _) st) ->
  (exists d, In d st /\ _id d = oid) ->
  let st1 := db (deleteUserById store (id_request id None) res
                   (init_world st)) in
  List.length st1 + 1 = List.length st /\
  deleteUserById store (id_request id None) res' (init_world st1)
  = answered st1 [CallFindOneAndDelete (ById oid)] 404
      (Message "User not found").
Proof.
  intros Hv Hn Hnd (d & Hin & Hd) st1.
  destruct (find_some_of_In (ById oid) st d Hin) as [u Hu].
  { now apply matches_ById. }
  destruct (find_first (ById oid) (fun x => x) st Hu)
    as (l1 & l2 & Hst & Hm & Hl & _ & Hrm).
  apply matches_ById in Hm.
  assert (H1 : st1 = l1 ++ l2).
  { unfold st1. rewrite (@deleteUserById_mem id oid st res Hv Hn), Hu.
    simpl. exact Hrm. }
  split.
  { rewrite H1, Hst, !length_app. simpl. lia. }
  rewrite (@deleteUserById_mem id oid st1 res' Hv Hn).
  assert (Hf : find (matches (ById oid)) st1 = None).
  { rewrite H1. apply find_none_of_ids. intros x Hx E.
    rewrite Hst, map_app in Hnd. simpl in Hnd.
    apply NoDup_remove_2 in Hnd. apply Hnd.
    rewrite Hm, <- E, <- map_app. now apply in_map. }
  rewrite Hf. reflexivity.
Qed.

Lemma updateUserByName_mem_db (old new : string) (st : list Doc)
  (res : Response) :
  old <> "" ->
  new <> "" ->
  db (updateUserByName store
        (rename_request (Some (QString old)) (Some (JString new))) res
        (init_world st))
  = update_first (ByName old) (set_name (JString new)) st.
Proof.
  intros Hold Hnew.
  pose proof (nonempty_query_truthy Hold) as Hq. simpl in Hq.
  pose proof (nonempty_truthy Hnew) as Hb. simpl in Hb.
  run_handler. rewrite Hq, Hb. simpl.
  destruct (find (matches (ByName old)) st) eqn:E; simpl.
  - now destruct res.
  - destruct (find_nothing (ByName old) (set_name (JString new)) st E)
      as [-> _].
    now destruct res.
Qed.

Lemma updateUserById_mem_db (id : string) (oid : ObjectId)
  (v : option JsValue) (st : list Doc) (res : Response) :
  ObjectId_isValid id = true ->
  new_ObjectId id = Some oid ->
  ToString_field v <> None ->
  db (updateUserById store (id_request id v) res (init_world st))
  = update_first (ById oid) (set_name (stored v)) st.
Proof.
  intros Hv Hn Hp.
  destruct (ToString_field v) as [t|] eqn:Ht; [clear Hp | now elim Hp].
  run_handler. rewrite Ht. simpl. rewrite Hv. simpl. rewrite Hn. simpl.
  destruct (find (matches (ById oid)) st) eqn:E; simpl.
  - rewrite E. simpl. now destruct res.
  - destruct (find_nothing (ById oid) (set_name (stored v)) st E)
      as [-> _].
    now destruct res.
Qed.

(** X14: after UpdateByName(old, new) on a store that has a record named
    [old], FindByName(new) answers 200 with a record named [new]. *)
Theorem update_by_name_then_find (old new : string) (st : list Doc)
  (res res' : Response) :
  old <> "" ->
  new <> "" ->
  (exists d, In d st /\ name d = JString old) ->
  let st1 := db (updateUserByName store
                   (rename_request (Some (QString old))
                      (Some (JString new))) res (init_world st)) in
  exists u,
    getUserByName store (query_only (Some (QString new))) res'
      (init_world st1)
    = answered st1 [CallFindOne (ByName new)] 200 (Record_ u)
    /\ name u = JString new.
Proof.
  intros Hold Hnew (d & Hin & Hd) st1.
  destruct (find_some_of_In (ByName old) st d Hin) as [u0 Hu0].
  { now apply matches_ByName. }
  destruct (find_first (ByName old) (set_name (JString new)) st Hu0)
    as (l1 & l2 & _ & _ & _ & Hup & _).
  assert (H1 : st1 = l1 ++ set_name (JString new) u0 :: l2).
  { unfold st1. now rewrite updateUserByName_mem_db. }
  destruct (find_some_of_In (ByName new) st1
              (set_name (JString new) u0)) as [u Hu].
  { rewrite H1. apply in_or_app. right. left. reflexivity. }
  { simpl. apply String.eqb_refl. }
  exists u. rewrite (getUserByName_mem st1 res' Hnew), Hu.
  split; [reflexivity|].
  apply matches_ByName. exact (proj2 (find_some _ _ Hu)).
Qed.

(** X15: DeleteByName removes only the earliest record of that name.
    If a later record has the same name, FindByName still answers 200
    afterwards, with the earliest of the later ones; if none has, it
    answers 404. *)
Theorem delete_by_name_keeps_later (s : string) (l1 l2 : list Doc)
  (u : Doc) (res res' : Response) :
  s <> "" ->
  name u = JString s ->
  (forall x, In x l1 -> name x <> JString s) ->
  let st1 := db (deleteUserByName store (query_only (Some (QString s)))
                   res (init_world (l1 ++ u :: l2))) in
  st1 = l1 ++ l2 /\
  getUserByName store (query_only (Some (QString s))) res'
    (init_world st1)
  = match find (matches (ByName s)) l2 with
    | Some d => answered st1 [CallFindOne (ByName s)] 200 (Record_ d)
    | None =>
        answered st1 [CallFindOne (ByName s)] 404
          (Message "User not found")
    end.
Proof.
  intros Hs Hu Hl st1.
  pose proof (@find_none_of_names s l1 Hl) as Hf.
  apply matches_ByName in Hu.
  assert (H1 : st1 = l1 ++ l2).
  { unfold st1. rewrite (deleteUserByName_mem _ res Hs).
    rewrite find_over_app, Hf. cbn [find]. rewrite Hu.
    rewrite remove_first_over_app by exact Hf. cbn [remove_first].
    rewrite Hu. reflexivity. }
  split; [exact H1|].
  rewrite (getUserByName_mem st1 res' Hs), H1, find_over_app, Hf.
  reflexivity.
Qed.

(** X16: after UpdateById of an existing record, with a body name
    that the handler's log line can print, FindById of the same id
    answers 200 with the record as updated: same id, the name that was
    sent. *)
Theorem update_by_id_then_find (id : string) (oid : ObjectId)
  (v : option JsValue) (st : list Doc) (res res' : Response) :
  ObjectId_isValid id = true ->
  new_ObjectId id = Some oid ->
  ToString_field v <> None ->
  (exists d, In d st /\ _id d = oid) ->
  let st1 := db (updateUserById store (id_request id v) res
                   (init_world st)) in
  getUserById store (id_request id None) res' (init_world st1)
  = answered st1 [CallFindOne (ById oid)] 200
      (Record_ (mkDoc oid (stored v))).
Proof.
  intros Hv Hn Hp (d & Hin & Hd) st1.
  destruct (find_some_of_In (ById oid) st d Hin) as [u Hu].
  { now apply matches_ById. }
  destruct (find_first (ById oid) (set_name (stored v)) st Hu)
    as (l1 & l2 & _ & Hm & Hl & Hup & _).
  assert (H1 : st1 = l1 ++ set_name (stored v) u :: l2).
  { unfold st1.
    now rewrite (@updateUserById_mem_db id oid v st res Hv Hn Hp). }
  rewrite (@getUserById_mem id oid st1 res' Hv Hn).
  assert (Hf : find (matches (ById oid)) st1
               = Some (mkDoc oid (stored v))).
  { rewrite H1, find_over_app.
    rewrite (proj2 (find_none_iff (ById oid) l1) Hl).
    unfold find. simpl. simpl in Hm. rewrite Hm.
    apply ObjectId_eqb_eq in Hm. unfold set_name. now rewrite Hm. }
  rewrite Hf. reflexivity.
Qed.

End OnMemStoreMore.

(** * Properties of the database module and of the start-up *)

Section DbProperties.

Import Db.

Variable lib : Libraries.

Ltac run_db :=
  unfold App.start, connectToDatabase, closeDatabase, await_create,
    new_MongoClient, await_connect, await_close, await_stop, select_db,
    then_, unit_, raise, log_call, read, assign, load;
  simpl.

Ltac split_db :=
  repeat (match goal with
          | |- context [match ?x with _ => _ end] =>
              lazymatch x with
              | context [match _ with _ => _ end] => fail
              | _ => destruct x eqn:?
              end
          end; simpl).

Lemma connect_without_uri_any (env : ProcessEnv) (s : State) :
  useInMemoryDatabase (vars s) = false ->
  uri_missing (MONGO_URI env) = true ->
  connectToDatabase env lib s
  = (Failed (Error_ "MongoDB URI is not defined"), s).
Proof.
  intros Hm Hu. run_db. rewrite Hm, Hu. reflexivity.
Qed.

(** X17: outside test mode, [connectToDatabase] with [MONGO_URI] unset
    or empty throws "MongoDB URI is not defined" before any library is
    called, and leaves every module variable as it was. *)
Theorem connect_without_uri (env : ProcessEnv) (s : State) :
  useInMemoryDatabase (vars s) = false ->
  MONGO_URI env = None \/ MONGO_URI env = Some "" ->
  connectToDatabase env lib s
  = (Failed (Error_ "MongoDB URI is not defined"), s).
Proof.
  intros Hm Hu. run_db. rewrite Hm.
  destruct Hu as [-> | ->]; reflexivity.
Qed.

(** X18: after [connectToDatabase] on the freshly loaded module,
    [usersCollection] is assigned exactly when the call resolved.  When
    it resolved, the handle is the collection "users" of database "test"
    (test mode) or "user" (otherwise) on the client that was connected,
    and the last thing done was to log "Connected to MongoDB"; when it
    failed, [usersCollection] is still [undefined] and nothing was
    logged. *)
Theorem connect_defines_collection (env : ProcessEnv) :
  let r := fst (connectToDatabase env lib (load env)) in
  let s := snd (connectToDatabase env lib (load env)) in
  match r with
  | Done _ =>
      exists c,
        client (vars s) = Some c /\
        usersCollection (vars s)
        = Some {| collection_db :=
                    {| db_client := c;
                       db_name :=
                         if useInMemoryDatabase (vars s)
                         then "test" else "user" |};
                  collection_name := "users" |} /\
        In (CallConnect c) (calls s) /\
        last (calls s) CallCreateServer
        = CallConsoleLog "Connected to MongoDB"
  | Failed _ =>
      usersCollection (vars s) = None /\
      ~ In (CallConsoleLog "Connected to MongoDB") (calls s)
  end.
Proof.
  run_db. split_db;
    try (split; [reflexivity | intros H; simpl in H; intuition discriminate]);
    eexists; repeat split; simpl; auto.
Qed.

(** X19: in test mode the client is built on the URI of the in-memory
    server and [MONGO_URI] is never read; outside test mode it is built
    on [MONGO_URI] and no in-memory server is created. *)
Theorem connect_uri_source (env : ProcessEnv) (uri : string) :
  let s := snd (connectToDatabase env lib (load env)) in
  In (CallNewClient uri) (calls s) ->
  if useInMemoryDatabase (vars s)
  then exists srv, mongoServer (vars s) = Some srv /\ getUri srv = uri
  else MONGO_URI env = Some uri /\ ~ In CallCreateServer (calls s)
       /\ mongoServer (vars s) = None.
Proof.
  run_db. split_db;
    try match goal with
        | E : uri_missing None = false |- _ => discriminate E
        end;
    intros H; simpl in H;
    repeat (destruct H as [H | H]; [try discriminate H|]);
    try contradiction;
    try (injection H as <-);
    try (eexists; split; reflexivity);
    try (repeat split; auto; intros F; simpl in F; intuition discriminate).
Qed.

(** X20: [closeDatabase] gives back what [connectToDatabase] took, also
    after a connect that failed half-way: provided the client
    constructor does not throw and [close] and [stop] resolve, it
    resolves, having closed the client if one was created and then
    stopped the in-memory server if one was created, and nothing else. *)
Theorem close_releases (env : ProcessEnv) :
  (forall uri, exists c, MongoClient_new lib uri = Normal c) ->
  (forall c, client_close lib c = None) ->
  (forall srv, mongoServer_stop lib srv = None) ->
  let s := snd (connectToDatabase env lib (load env)) in
  closeDatabase lib s
  = (Done tt,
     {| vars := vars s;
        calls :=
          calls s
          ++ match client (vars s) with
             | Some c => [CallClose c]
             | None => []
             end
          ++ match mongoServer (vars s) with
             | Some srv => [CallStop srv]
             | None => []
             end |}).
Proof.
  intros Hnew Hclose Hstop. run_db.
  destruct (match NODE_ENV env with
            | Some v => String.eqb v "test"
            | None => false
            end); simpl.
  - destruct (MongoMemoryServer_create lib) as [srv | e]; simpl;
      [|reflexivity].
    destruct (Hnew (getUri srv)) as [c ->]. simpl.
    destruct (client_connect lib c); simpl;
      rewrite Hclose, Hstop; reflexivity.
  - destruct (uri_missing (MONGO_URI env)); simpl; [reflexivity|].
    destruct (Hnew (match MONGO_URI env with Some u => u | None => "" end))
      as [c ->]. simpl.
    destruct (client_connect lib c); simpl; rewrite Hclose; reflexivity.
Qed.

(** X21: in test mode, when [client.close()] is rejected,
    [closeDatabase] is rejected with that error and the in-memory server
    is never stopped. *)
Theorem close_rejected_leaves_server (s : State) (srv : MongoMemoryServer)
  (c : MongoClient) (e : JsError) :
  useInMemoryDatabase (vars s) = true ->
  mongoServer (vars s) = Some srv ->
  client (vars s) = Some c ->
  client_close lib c = Some e ->
  closeDatabase lib s
  = (Failed (LibraryError e),
     {| vars := vars s; calls := calls s ++ [CallClose c] |}).
Proof.
  intros Hm Hs Hc He. run_db. rewrite Hm, Hs, Hc. simpl.
  rewrite He. reflexivity.
Qed.

(** X22: the start-up mounts the user routes exactly when
    [usersCollection] has been assigned.  If it has, the stack is the
    JSON body parser followed by the routes under "/api" and the
    process keeps running; if it has not, only the body parser is
    installed, one error is logged and the process exits with code 1. *)
Theorem start_mounts_iff_connected (env : ProcessEnv) :
  let p := App.start env lib in
  match usersCollection (vars (App.database p)) with
  | Some _ =>
      App.stack p = [App.express_json; App.userRoutes "/api"] /\
      App.exit_code p = None /\
      App.console_error p = []
  | None =>
      App.stack p = [App.express_json] /\
      App.exit_code p = Some 1 /\
      exists e, App.console_error p = [e]
  end.
Proof.
  run_db. split_db; repeat split; eauto.
Qed.

(** X23: started outside test mode with [MONGO_URI] unset or empty, the
    application calls no library, logs "MongoDB URI is not defined",
    exits with code 1 and never mounts the user routes. *)
Theorem start_without_uri (env : ProcessEnv) :
  NODE_ENV env <> Some "test" ->
  MONGO_URI env = None \/ MONGO_URI env = Some "" ->
  App.start env lib
  = {| App.stack := [App.express_json];
       App.console_error := [Error_ "MongoDB URI is not defined"];
       App.exit_code := Some 1;
       App.database := load env |}.
Proof.
  intros Hn Hu.
  assert (Hm : useInMemoryDatabase (vars (load env)) = false).
  { simpl. destruct (NODE_ENV env) as [v|]; [|reflexivity].
    destruct (String.eqb_spec v "test"); [|reflexivity].
    subst. now elim Hn. }
  unfold App.start.
  destruct Hu as [Hu | Hu];
    (rewrite connect_without_uri_any; [reflexivity | exact Hm |];
     rewrite Hu; reflexivity).
Qed.

End DbProperties.

(** ** The further properties at sample requests *)

Section MoreSampleRequests.

Import Sample.

Local Abbreviation B := bson_hex24.

Local Existing Instance bson_hex24.

Lemma sample_ids_bounded (l : list (@Doc B)) (x : N) :
  In x (map (@_id B) l) ->
  (x <= fold_right N.max 0%N (map (@_id B) l))%N.
Proof.
  induction l as [|d rest IH]; simpl; [intros []|].
  intros [<- | H]; [apply N.le_max_l|].
  apply IH in H. apply N.max_le_iff. right. exact H.
Qed.

Lemma sample_pk_fresh (l : list (@Doc B)) :
  ~ In (pkFactory l) (map (@_id B) l).
Proof.
  intros H. apply sample_ids_bounded in H. unfold pkFactory in H.
  apply N.le_succ_l in H. exact (N.lt_irrefl _ H).
Qed.

Lemma rejecting_rejects_all (msg : string) : rejects_all (rejecting msg).
Proof. repeat split; intros; eexists; reflexivity. Qed.

Lemma one_outcome_per_request_witness :
  List.length
    (res_log (router store DELETE_users_id (id_request id_two None)
                ExpressResponse (init_world users)))
  + List.length
      (next_log (router store DELETE_users_id (id_request id_two None)
                   ExpressResponse (init_world users))) = 1.
Proof.
  apply (@one_outcome_per_request B _ store DELETE_users_id
           (id_request id_two None) ExpressResponse users).
  discriminate.
Defined.

Lemma updateUserByName_matched_witness :
  updateUserByName store
    (rename_request (Some (QString "John Doe")) (Some (JString "Jane")))
    ExpressResponse (init_world users)
  = answered
      [ @mkDoc B 1%N (JString "Old Name"); @mkDoc B 2%N (JString "Jane");
        @mkDoc B 3%N (JString "Old Name") ]
      [CallUpdateOne (ByName "John Doe") (Some (JString "Jane"))]
      200 (Message "User updated successfully").
Proof.
  apply (@updateUserByName_matched B _ store
           (rename_request (Some (QString "John Doe"))
              (Some (JString "Jane")))
           ExpressResponse users _ "John Doe"
           (Build_UpdateResult 1 1)).
  - reflexivity.
  - reflexivity.
  - reflexivity.
  - reflexivity.
  - discriminate.
Defined.

Lemma store_down_no_reply_witness :
  res_log (router (rejecting "Database error") GET_users
             (query_only (Some (QString "John Doe"))) ExpressResponse
             (init_world users)) = []
  /\
  exists e,
    next_log (router (rejecting "Database error") GET_users
                (query_only (Some (QString "John Doe"))) ExpressResponse
                (init_world users)) = [e].
Proof.
  apply (@store_down_no_reply B _ (rejecting "Database error") GET_users
           (query_only (Some (QString "John Doe"))) ExpressResponse users).
  - apply rejecting_rejects_all.
  - reflexivity.
Defined.

Lemma non_string_query_name_witness :
  (deleteUserByName store
     (query_only (Some (QArray [QString "a"; QString "b"])))
     ExpressResponse (init_world users)
   = answered users [] 400 (Message "Name query parameter is required")
   /\
   db_log (getUserByName store
             (query_only (Some (QArray [QString "a"; QString "b"])))
             ExpressResponse (init_world users))
   = [CallFindOne (ByName "a,b")]
   /\
   db_log (updateUserByName store
             (rename_request (Some (QArray [QString "a"; QString "b"]))
                (Some (JString "c")))
             ExpressResponse (init_world users))
   = [CallUpdateOne (ByName "a,b") (Some (JString "c"))])
  /\
  getUserByName store
    (query_only (Some (QObject [("toString", QString "x")])))
    ExpressResponse (init_world users)
  = {| db := users; db_log := []; res_log := [];
       next_log := [JsTypeError] |}.
Proof.
  split.
  - apply (@non_string_query_name B _ store
             (QArray [QString "a"; QString "b"]) (Some (JString "c"))
             ExpressResponse users).
    + reflexivity.
    + reflexivity.
  - apply (@non_string_query_name B _ store
             (QObject [("toString", QString "x")]) (Some (JString "c"))
             ExpressResponse users).
    + reflexivity.
    + reflexivity.
Defined.

Lemma getUserByName_first_match_witness :
  exists l1 u l2,
    users = l1 ++ u :: l2 /\
    name u = JString "Old Name" /\
    (forall x, In x l1 -> name x <> JString "Old Name") /\
    getUserByName store (query_only (Some (QString "Old Name")))
      ExpressResponse (init_world users)
    = answered users [CallFindOne (ByName "Old Name")] 200 (Record_ u).
Proof.
  apply (@getUserByName_first_match B true pkFactory "Old Name" users
           ExpressResponse); try discriminate.
  exists (@mkDoc B 3%N (JString "Old Name")). split.
  - right. right. left. reflexivity.
  - reflexivity.
Defined.

Lemma getUserById_lookup_witness :
  exists l1 u l2,
    users = l1 ++ u :: l2 /\
    _id u = 2%N /\
    (forall x, In x l1 -> _id x <> 2%N) /\
    getUserById store (id_request id_two None) ExpressResponse
      (init_world users)
    = answered users [CallFindOne (ById 2%N)] 200 (Record_ u).
Proof.
  apply (@getUserById_lookup B true pkFactory id_two 2%N users
           ExpressResponse); try reflexivity.
  exists (@mkDoc B 2%N (JString "John Doe")). split.
  - right. left. reflexivity.
  - reflexivity.
Defined.

Lemma reads_leave_store_witness :
  db (router store GET_users (query_only None) ExpressResponse
        (init_world users)) = users.
Proof.
  apply (@reads_leave_store B true pkFactory GET_users (query_only None)
           ExpressResponse users).
  left. reflexivity.
Defined.

Lemma updates_keep_ids_witness :
  map (@_id B)
    (db (router store PUT_users_id
           (id_request id_two (Some (JString "Jane"))) ExpressResponse
           (init_world users)))
  = [1%N; 2%N; 3%N].
Proof.
  apply (@updates_keep_ids B true pkFactory PUT_users_id
           (id_request id_two (Some (JString "Jane"))) ExpressResponse
           users).
  right. reflexivity.
Defined.

Lemma ids_stay_distinct_witness :
  NoDup
    (map (@_id B)
       (db (router store POST_users (body_only (Some (JString "Jane")))
              ExpressResponse (init_world users)))).
Proof.
  apply (@ids_stay_distinct B true pkFactory POST_users
           (body_only (Some (JString "Jane"))) ExpressResponse users).
  - apply sample_pk_fresh.
  - simpl. repeat constructor; simpl; intuition discriminate.
Defined.

Lemma create_then_delete_by_name_witness :
  deleteUserByName store (query_only (Some (QString "Jane")))
    ExpressResponse
    (init_world
       (db (createUser store (body_only (Some (JString "Jane")))
              ExpressResponse (init_world users))))
  = answered users [CallDeleteOne (ByName "Jane")] 200
      (Message "User deleted successfully").
Proof.
  apply (@create_then_delete_by_name B true pkFactory "Jane" users
           ExpressResponse ExpressResponse).
  - discriminate.
  - intros d [<-|[<-|[<-|[]]]]; discriminate.
Defined.

Lemma delete_by_id_twice_witness :
  let st1 := db (deleteUserById store (id_request id_two None)
                   ExpressResponse (init_world users)) in
  List.length st1 + 1 = List.length users /\
  deleteUserById store (id_request id_two None) ExpressResponse
    (init_world st1)
  = answered st1 [CallFindOneAndDelete (ById 2%N)] 404
      (Message "User not found").
Proof.
  apply (@delete_by_id_twice B true pkFactory id_two 2%N users
           ExpressResponse ExpressResponse); try reflexivity.
  - simpl. repeat constructor; simpl; intuition discriminate.
  - exists (@mkDoc B 2%N (JString "John Doe")). split.
    + right. left. reflexivity.
    + reflexivity.
Defined.

Lemma update_by_name_then_find_witness :
  let st1 := db (updateUserByName store
                   (rename_request (Some (QString "John Doe"))
                      (Some (JString "Jane")))
                   ExpressResponse (init_world users)) in
  exists u,
    getUserByName store (query_only (Some (QString "Jane")))
      ExpressResponse (init_world st1)
    = answered st1 [CallFindOne (ByName "Jane")] 200 (Record_ u)
    /\ name u = JString "Jane".
Proof.
  apply (@update_by_name_then_find B true pkFactory "John Doe" "Jane"
           users ExpressResponse ExpressResponse); try discriminate.
  exists (@mkDoc B 2%N (JString "John Doe")). split.
  - right. left. reflexivity.
  - reflexivity.
Defined.

Lemma delete_by_name_keeps_later_witness :
  let st1 := db (deleteUserByName store
                   (query_only (Some (QString "Old Name")))
                   ExpressResponse (init_world users)) in
  st1 = [ @mkDoc B 2%N (JString "John Doe");
          @mkDoc B 3%N (JString "Old Name") ]
  /\
  getUserByName store (query_only (Some (QString "Old Name")))
    ExpressResponse (init_world st1)
  = answered st1 [CallFindOne (ByName "Old Name")] 200
      (Record_ (@mkDoc B 3%N (JString "Old Name"))).
Proof.
  apply (@delete_by_name_keeps_later B true pkFactory "Old Name" []
           [ @mkDoc B 2%N (JString "John Doe");
             @mkDoc B 3%N (JString "Old Name") ]
           (@mkDoc B 1%N (JString "Old Name"))
           ExpressResponse ExpressResponse).
  - discriminate.
  - reflexivity.
  - intros x [].
Defined.

Lemma update_by_id_then_find_witness :
  let st1 := db (updateUserById store
                   (id_request id_two (Some (JString "Jane")))
                   ExpressResponse (init_world users)) in
  getUserById store (id_request id_two None) ExpressResponse
    (init_world st1)
  = answered st1 [CallFindOne (ById 2%N)] 200
      (Record_ (@mkDoc B 2%N (JString "Jane"))).
Proof.
  apply (@update_by_id_then_find B true pkFactory id_two 2%N
           (Some (JString "Jane")) users ExpressResponse ExpressResponse).
  - reflexivity.
  - reflexivity.
  - discriminate.
  - exists (@mkDoc B 2%N (JString "John Doe")). split.
    + right. left. reflexivity.
    + reflexivity.
Defined.

Lemma updateUserById_log_throws_witness :
  updateUserById store
    (id_request "invalid-id"
       (Some (JArray [JString "a"; JObject [("toString", JNull)]])))
    ExpressResponse (init_world users)
  = {| db := users; db_log := []; res_log := [];
       next_log := [JsTypeError] |}.
Proof.
  apply (@updateUserById_log_throws B _ store
           (id_request "invalid-id"
              (Some (JArray [JString "a"; JObject [("toString", JNull)]])))
           ExpressResponse users).
  reflexivity.
Defined.

End MoreSampleRequests.

(** ** The database properties at sample environments *)

Section SampleStartups.

Import Db SampleDb.

Lemma connect_without_uri_witness :
  connectToDatabase env_no_uri libraries (load env_no_uri)
  = (Failed (Error_ "MongoDB URI is not defined"), load env_no_uri).
Proof.
  apply (@connect_without_uri libraries env_no_uri (load env_no_uri)).
  - reflexivity.
  - left. reflexivity.
Defined.

Lemma connect_uri_source_witness :
  exists srv,
    mongoServer
      (vars (snd (connectToDatabase env_test libraries (load env_test))))
    = Some srv
    /\ getUri srv = "mongodb://127.0.0.1:27017/".
Proof.
  apply (@connect_uri_source libraries env_test
           "mongodb://127.0.0.1:27017/").
  simpl. right. left. reflexivity.
Defined.

Lemma close_releases_witness :
  closeDatabase libraries
    (snd (connectToDatabase env_test libraries (load env_test)))
  = (Done tt,
     {| vars :=
          vars (snd (connectToDatabase env_test libraries
                       (load env_test)));
        calls :=
          [ CallCreateServer;
            CallNewClient "mongodb://127.0.0.1:27017/";
            CallConnect {| client_uri := "mongodb://127.0.0.1:27017/" |};
            CallConsoleLog "Connected to MongoDB";
            CallClose {| client_uri := "mongodb://127.0.0.1:27017/" |};
            CallStop server ] |}).
Proof.
  apply (@close_releases libraries env_test).
  - intros uri. eexists. reflexivity.
  - reflexivity.
  - reflexivity.
Defined.

Lemma close_rejected_leaves_server_witness :
  closeDatabase close_fails
    (snd (connectToDatabase env_test close_fails (load env_test)))
  = (Failed (LibraryError (StoreRejected "close failed")),
     {| vars :=
          vars (snd (connectToDatabase env_test close_fails
                       (load env_test)));
        calls :=
          [ CallCreateServer;
            CallNewClient "mongodb://127.0.0.1:27017/";
            CallConnect {| client_uri := "mongodb://127.0.0.1:27017/" |};
            CallConsoleLog "Connected to MongoDB";
            CallClose {| client_uri := "mongodb://127.0.0.1:27017/" |} ]
     |}).
Proof.
  apply (@close_rejected_leaves_server close_fails
           (snd (connectToDatabase env_test close_fails (load env_test)))
           server {| client_uri := "mongodb://127.0.0.1:27017/" |}
           (StoreRejected "close failed")); reflexivity.
Defined.

Lemma start_without_uri_witness :
  App.exit_code (App.start env_no_uri libraries) = Some 1
  /\ App.stack (App.start env_no_uri libraries) = [App.express_json].
Proof.
  rewrite (@start_without_uri libraries env_no_uri).
  - split; reflexivity.
  - discriminate.
  - left. reflexivity.
Defined.

(** Outside test mode the handle is the collection "users" of the
    database "user" on [MONGO_URI], and no in-memory server is made. *)
Example connect_in_production :
  connectToDatabase env_production libraries (load env_production)
  = (Done tt,
     {| vars :=
          {| useInMemoryDatabase := false;
             db := Some {| db_client :=
                             {| client_uri := "mongodb://db.example/users" |};
                           db_name := "user" |};
             usersCollection :=
               Some {| collection_db :=
                         {| db_client :=
                              {| client_uri :=
                                   "mongodb://db.example/users" |};
                            db_name := "user" |};
                       collection_name := "users" |};
             mongoServer := None;
             client := Some {| client_uri := "mongodb://db.example/users" |}
          |};
        calls :=
          [ CallNewClient "mongodb://db.example/users";
            CallConnect {| client_uri := "mongodb://db.example/users" |};
            CallConsoleLog "Connected to MongoDB" ] |}).
Proof. reflexivity. Qed.

End SampleStartups.
